(** * auto-sklearn: the pipeline base class

    A shallow embedding of [autosklearn/pipeline/base.py] (class
    [BasePipeline]) and the properties of its search-space construction,
    hyperparameter routing, batched prediction and textual representation.

    Conventions of the embedding.
    - A Python call either returns a value or raises: [result A].
    - A Python [dict] is an association list in insertion order with unique
      keys; [d[k] = v] overwrites in place or appends ([dict_set]).  The
      order is kept because the source iterates over dicts ([for key in
      include], [dataset_properties_.items()], [str(configuration)]).
    - Python values that reach the code as data (hyperparameter values,
      dataset properties, the [batch_size] argument) are [value]s.
    - Libraries that are not part of the repository (numpy's array
      arithmetic, scikit-learn's [Pipeline.predict] and
      [check_random_state], the ConfigSpace package, [difflib]) and the
      hooks that subclasses provide are the fields of interface classes;
      every definition and theorem is generic in them. *)

From Stdlib Require Import ZArith List String Ascii Bool Arith Lia.
From Stdlib Require Import DecimalString Sorted Permutation.
Import ListNotations.

Local Open Scope string_scope.
Local Open Scope list_scope.

(* ================================================================== *)
(** * Python values, strings and dictionaries *)
(* ================================================================== *)

Module Py.

(** Exceptions, by class, with the message the source builds. *)
Inductive exn : Type :=
| ValueError (msg : string)
| AssertionError (msg : string)
| NotImplementedError (msg : string)
| Exception (msg : string)
| OverflowError (msg : string).

Inductive result (A : Type) : Type :=
| Ok (a : A)
| Raise (e : exn).
Arguments Ok {A} a.
Arguments Raise {A} e.

Definition bind {A B} (r : result A) (k : A -> result B) : result B :=
  match r with
  | Ok a => k a
  | Raise e => Raise e
  end.

(** Data values.  [VObj] stands for a value of any other type (a float, a
    numpy scalar, a list, ...), kept with its printed form. *)
Inductive value : Type :=
| VNone
| VBool (b : bool)
| VInt (z : Z)
| VStr (s : string)
| VObj (printed : string).

(** [type(v) is int] *)
Definition type_is_int (v : value) : bool :=
  match v with VInt _ => true | _ => false end.

(** [isinstance(v, str)] *)
Definition isinstance_str (v : value) : bool :=
  match v with VStr _ => true | _ => false end.

(** [v is not None] *)
Definition is_not_None (v : value) : bool :=
  match v with VNone => false | _ => true end.

(** ** Strings *)

Definition nl : string := String (ascii_of_nat 10) EmptyString.
Definition squote : ascii := ascii_of_nat 39.
Definition dquote : ascii := ascii_of_nat 34.
Definition backslash : ascii := ascii_of_nat 92.

(** [s.startswith(p)] *)
Definition startswith (s p : string) : bool := String.prefix p s.

Fixpoint skip (n : nat) (s : string) : string :=
  match n, s with
  | O, _ => s
  | S _, EmptyString => EmptyString
  | S n', String _ s' => skip n' s'
  end.

(** [s.replace(old, new, 1)]: the leftmost occurrence of [old] is replaced,
    and nothing else. *)
Fixpoint replace_first (s old new : string) : string :=
  if String.prefix old s then new ++ skip (String.length old) s
  else match s with
       | EmptyString => EmptyString
       | String c s' => String c (replace_first s' old new)
       end.

(** [sep.join(l)] *)
Definition join (sep : string) (l : list string) : string := String.concat sep l.

(** [''.join(l)] *)
Definition join_empty (l : list string) : string := String.concat EmptyString l.

(** [str(z)] for an int. *)
Definition str_int (z : Z) : string := NilZero.string_of_int (Z.to_int z).

Fixpoint string_mem (c : ascii) (s : string) : bool :=
  match s with
  | EmptyString => false
  | String c' s' => if Ascii.eqb c c' then true else string_mem c s'
  end.

Definition hex_digit (n : nat) : ascii :=
  if (n <? 10)%nat then ascii_of_nat (48 + n) else ascii_of_nat (87 + n).

Definition escape_char (q c : ascii) : string :=
  let n := nat_of_ascii c in
  if Ascii.eqb c backslash then String backslash (String backslash EmptyString)
  else if Ascii.eqb c q then String backslash (String q EmptyString)
  else if (n =? 9)%nat then String backslash "t"
  else if (n =? 10)%nat then String backslash "n"
  else if (n =? 13)%nat then String backslash "r"
  else if ((n <? 32) || (n =? 127))%nat then
    String backslash (String "x" (String (hex_digit (n / 16))
                                   (String (hex_digit (n mod 16)) EmptyString)))
  else String c EmptyString.

Fixpoint escape (q : ascii) (s : string) : string :=
  match s with
  | EmptyString => EmptyString
  | String c s' => escape_char q c ++ escape q s'
  end.

(** [repr(s)] for a str of ASCII text: single quotes, unless the text has a
    single quote and no double quote. *)
Definition repr_str (s : string) : string :=
  let q := if string_mem squote s && negb (string_mem dquote s)
           then dquote else squote in
  String q (escape q s ++ String q EmptyString).

Definition str_bool (b : bool) : string := if b then "True" else "False".

(** [str(v)], as the [%s] conversion applies it. *)
Definition str (v : value) : string :=
  match v with
  | VNone => "None"
  | VBool b => str_bool b
  | VInt z => str_int z
  | VStr s => s
  | VObj p => p
  end.

(** [repr(v)] *)
Definition repr (v : value) : string :=
  match v with
  | VStr s => repr_str s
  | _ => str v
  end.

(** [str(l)] for a list of str. *)
Definition str_list (l : list string) : string :=
  "[" ++ join ", " (map repr_str l) ++ "]".

(** [str(t)] for a tuple of ints, such as an array's shape. *)
Definition str_tuple (t : list nat) : string :=
  match t with
  | [n] => "(" ++ str_int (Z.of_nat n) ++ ",)"
  | _ => "(" ++ join ", " (map (fun n => str_int (Z.of_nat n)) t) ++ ")"
  end.

(** ** Dictionaries *)

Definition dict (V : Type) : Type := list (string * V).

(** [d.get(k)] *)
Fixpoint dict_get {V} (d : dict V) (k : string) : option V :=
  match d with
  | [] => None
  | (k', v) :: d' => if String.eqb k k' then Some v else dict_get d' k
  end.

(** [k in d] *)
Definition dict_contains {V} (d : dict V) (k : string) : bool :=
  match dict_get d k with Some _ => true | None => false end.

(** [d[k] = v] *)
Fixpoint dict_set {V} (d : dict V) (k : string) (v : V) : dict V :=
  match d with
  | [] => [(k, v)]
  | (k', v') :: d' =>
      if String.eqb k k' then (k', v) :: d' else (k', v') :: dict_set d' k v
  end.

(** The value of a key once the default [v] was written where it was absent. *)
Definition or_default {V} (d : dict V) (k : string) (v : V) : V :=
  match dict_get d k with Some v' => v' | None => v end.

(** The keys, in iteration order. *)
Definition dict_keys {V} (d : dict V) : list string := map fst d.

(** [k in l] for a list of str. *)
Definition list_contains (l : list string) (k : string) : bool :=
  existsb (String.eqb k) l.

(** [str(d)] for a dict with str keys. *)
Definition str_dict (d : dict value) : string :=
  "{" ++ join ", " (map (fun kv : string * value =>
                           (repr_str (fst kv) ++ ": " ++ repr (snd kv))%string) d)
      ++ "}".

(** [sorted(l)] for a list of str: insertion sort on the code-point order. *)
Fixpoint insert_sorted (k : string) (l : list string) : list string :=
  match l with
  | [] => [k]
  | k' :: l' => if String.leb k k' then k :: l else k' :: insert_sorted k l'
  end.

Definition sorted (l : list string) : list string :=
  fold_right insert_sorted [] l.

End Py.

Import Py.
Local Open Scope Z_scope.

Notation "x <- c1 ;; c2" := (bind c1 (fun x => c2))
  (at level 61, c1 at next level, right associativity).


(* ================================================================== *)
(** * [BasePipeline.predict] *)
(* ================================================================== *)

(** What [predict] takes from a fitted pipeline object and from numpy. *)
Class Fitted : Type := {
  (** a row of the input [X], an element of scikit-learn's raw prediction,
      and a row of the returned array (of dtype [self._output_dtype]) *)
  Row : Type;
  Raw : Type;
  Out : Type;
  (** [super(BasePipeline, self).predict(X)]: scikit-learn's
      [Pipeline.predict] over the fitted steps *)
  super_predict : list Row -> list Raw;
  (** elementwise [.astype(self._output_dtype)] *)
  astype : Raw -> Out;
  (** [self.num_targets], and the rows [np.zeros] fills the result with: a
      scalar zero for one target, a row of [num_targets] zeros otherwise *)
  num_targets : Z;
  zero_scalar : Out;
  zero_row : Z -> Out;
  (** the text of the [ValueError] numpy raises when a value of some number
      of rows cannot be broadcast into a slice of another number of rows *)
  broadcast_message : nat -> nat -> string
}.

(** [X.shape[0]] *)
Definition shape0 {A} (X : list A) : Z := Z.of_nat (List.length X).

(** [X[a:b]] for bounds that are not negative. *)
Definition slice {A} (X : list A) (a b : Z) : list A :=
  firstn (Z.to_nat b - Z.to_nat a)%nat (skipn (Z.to_nat a) X).

(** [range(n)] *)
Definition range (n : Z) : list Z := map Z.of_nat (seq 0 (Z.to_nat n)).

(** The ceiling of [n / b] in exact arithmetic, for [0 <= n] and [0 < b]. *)
Definition ceil_div (n b : Z) : Z := (n + b - 1) / b.

(** ** Double-precision arithmetic of the batch count

    [int(np.ceil(float(X.shape[0]) / batch_size))] converts both ints to
    doubles, divides them and takes the ceiling.  The doubles that occur
    here are integers, so they are kept as the integers they are. *)

(** The integer nearest to [num / den], ties to the even one ([0 <= num],
    [0 < den]). *)
Definition round_half_even (num den : Z) : Z :=
  let q := num / den in
  let r := num mod den in
  if 2 * r <? den then q
  else if den <? 2 * r then q + 1
  else if Z.even q then q else q + 1.

(** From here on an int does not convert to a double. *)
Definition float_overflow_bound : Z := 2 ^ 1024 - 2 ^ 970.

(** [float(n)] for an int [0 <= n]: the nearest double (53 significant
    bits, ties to even), or [OverflowError] when that would be infinite. *)
Definition float_of_int (n : Z) : result Z :=
  if n <? 2 ^ 53 then Ok n
  else
    let e := Z.log2 n - 52 in
    let m := round_half_even n (2 ^ e) in
    if 2 ^ 1024 <=? m * 2 ^ e
    then Raise (OverflowError "int too large to convert to float")
    else Ok (m * 2 ^ e).

(** [np.ceil(x / y)] for doubles [0 <= x] and [0 < y] that are integers: the
    quotient is rounded to 53 significant bits before the ceiling is taken.
    A quotient below one is a positive double, whose ceiling is one. *)
Definition ceil_of_quotient (x y : Z) : Z :=
  if x =? 0 then 0
  else if x <? y then 1
  else
    let d := Z.log2 x - Z.log2 y in
    let e := if y * 2 ^ d <=? x then d else d - 1 in
    if 52 <=? e
    then round_half_even x (y * 2 ^ (e - 52)) * 2 ^ (e - 52)
    else
      let s := 2 ^ (52 - e) in
      let m := round_half_even (x * s) y in
      (m + s - 1) / s.

(** [int(np.ceil(float(n) / b))] for ints [0 <= n] and [0 < b]. *)
Definition float_ceil_div (n b : Z) : result Z :=
  x <- float_of_int n ;;
  y <- float_of_int b ;;
  Ok (ceil_of_quotient x y).

Section PredictDef.
Context {F : Fitted}.

(** [y[a:b] = v] for bounds that are not negative: [v] must have as many
    rows as the slice, or one row, which numpy repeats. *)
Definition setslice (y : list Out) (a b : Z) (v : list Out) : result (list Out) :=
  let a' := Nat.min (Z.to_nat a) (List.length y) in
  let b' := Nat.max a' (Nat.min (Z.to_nat b) (List.length y)) in
  if (List.length v =? b' - a')%nat then Ok (firstn a' y ++ v ++ skipn b' y)
  else match v with
       | [r] => Ok (firstn a' y ++ repeat r (b' - a')%nat ++ skipn b' y)
       | _ => Raise (ValueError (broadcast_message (List.length v) (b' - a')%nat))
       end.

(** The branch [batch_size is None]. *)
Definition predict_None (X : list Row) : list Out := map astype (super_predict X).

(** [np.zeros((X.shape[0],), ...)] or [np.zeros((X.shape[0], num_targets), ...)] *)
Definition zeros (X : list Row) : list Out :=
  if num_targets =? 1 then repeat zero_scalar (List.length X)
  else repeat (zero_row num_targets) (List.length X).

(** [max(1, int(np.ceil(float(X.shape[0]) / batch_size)))] *)
Definition batch_count (X : list Row) (batch_size : Z) : result Z :=
  count <- float_ceil_div (shape0 X) batch_size ;;
  Ok (Z.max 1 count).

(** The same count in exact arithmetic. *)
Definition exact_batch_count (X : list Row) (batch_size : Z) : Z :=
  Z.max 1 (ceil_div (shape0 X) batch_size).

(** One turn of the loop over [k]. *)
Definition predict_batch (X : list Row) (batch_size : Z)
    (acc : result (list Out)) (k : Z) : result (list Out) :=
  y <- acc ;;
  let batch_from := k * batch_size in
  let batch_to := Z.min ((k + 1) * batch_size) (shape0 X) in
  setslice y batch_from batch_to (predict_None (slice X batch_from batch_to)).

(** [predict(self, X, batch_size=None)].  The test [type(batch_size) is not
    int or batch_size <= 0] compares with zero only when the type is [int]. *)
Definition predict (X : list Row) (batch_size : value) : result (list Out) :=
  match batch_size with
  | VNone => Ok (predict_None X)
  | VInt b =>
      if b <=? 0 then Raise (Exception "batch_size must be a positive integer")
      else
        count <- batch_count X b ;;
        fold_left (predict_batch X b) (range count) (Ok (zeros X))
  | _ => Raise (Exception "batch_size must be a positive integer")
  end.

(** The rows [X[batch_from:batch_to]] of the turns [k] in [range(count)]. *)
Definition row_ranges (X : list Row) (batch_size count : Z) : list (list Row) :=
  map (fun k => slice X (k * batch_size)
                        (Z.min ((k + 1) * batch_size) (shape0 X)))
      (range count).

(** The contiguous row ranges the loop visits, in order. *)
Definition batches (X : list Row) (batch_size : Z) : result (list (list Row)) :=
  count <- batch_count X batch_size ;;
  Ok (row_ranges X batch_size count).

End PredictDef.

(* ================================================================== *)
(** * Configuration spaces, nodes and the pipeline object *)
(* ================================================================== *)

(** A [ConfigSpace.Configuration]: the space it belongs to and its values in
    iteration order, populated ([None] for a hyperparameter that is not
    active), so that [_populate_values()] has nothing left to do. *)
Record Configuration (Space : Type) : Type := {
  configuration_space : Space;
  values : dict value
}.
Arguments configuration_space {Space} c.
Arguments values {Space} c.

(** The ConfigSpace package, as far as the pipeline uses it. *)
Class ConfigSpace : Type := {
  ConfigurationSpace : Type;
  (** [cs != cs'] *)
  space_ne : ConfigurationSpace -> ConfigurationSpace -> bool;
  (** [str(cs)] *)
  space_str : ConfigurationSpace -> string;
  (** [cs.add_configuration_space(prefix, sub)], returning [cs] as the call
      leaves it *)
  add_configuration_space :
    ConfigurationSpace -> string -> ConfigurationSpace -> result ConfigurationSpace;
  (** [cs.get_default_configuration()] *)
  get_default_configuration :
    ConfigurationSpace -> result (Configuration ConfigurationSpace);
  (** [Configuration(cs, values=d)] *)
  new_Configuration :
    ConfigurationSpace -> dict value -> result (Configuration ConfigurationSpace);
  (** [difflib.unified_diff(a, b)], as a list of lines *)
  unified_diff : list string -> list string -> list string
}.

(** [for param in configuration] *)
Definition config_iter {S} (c : Configuration S) : list string :=
  dict_keys (values c).

(** [configuration[param]] *)
Definition config_getitem {S} (c : Configuration S) (param : string) : value :=
  match dict_get (values c) param with
  | Some v => v
  | None => VNone
  end.

(** [include] and [exclude]: step name to the component names allowed or
    denied there. *)
Definition selector : Type := dict (list string).

Inductive node_class : Type :=
| AutoSklearnChoice
| AutoSklearnComponent
| OtherClass.

(** [matches]: an n-dimensional numpy array, by its shape and its entries in
    row-major order. *)
Record ndarray : Type := {
  shape : list nat;
  data : list Z;
  shape_data : List.length data = fold_right Nat.mul 1%nat shape
}.

Definition np_sum (m : ndarray) : Z := fold_right Z.add 0 (data m).
Definition np_size (m : ndarray) : Z := Z.of_nat (fold_right Nat.mul 1%nat (shape m)).

(** The entries that count as true. *)
Definition true_count (m : ndarray) : Z :=
  Z.of_nat (List.length (filter (fun z => negb (z =? 0)) (data m))).

(** A boolean indicator: every entry is 0 or 1. *)
Definition binary (m : ndarray) : Prop :=
  Forall (fun z => z = 0 \/ z = 1) (data m).

Section Objects.
Context {CS : ConfigSpace}.

(** Modelled from the spec: the classes [AutoSklearnChoice] and
    [AutoSklearnComponent] of [components/base.py] are not among the
    sources.  A step's node answers [get_hyperparameter_search_space(
    dataset_properties, include=...)] from its static description, and
    [set_hyperparameters(configuration)] records the sub-configuration that
    was applied. *)
Record Node : Type := {
  node_class_of : node_class;
  node_search_space : dict value -> option (list string) -> result ConfigurationSpace;
  node_configuration : option (Configuration ConfigurationSpace)
}.

Definition node_set_hyperparameters (node : Node)
    (c : Configuration ConfigurationSpace) : Node :=
  {| node_class_of := node_class_of node;
     node_search_space := node_search_space node;
     node_configuration := Some c |}.

Definition is_choice (node : Node) : bool :=
  match node_class_of node with AutoSklearnChoice => true | _ => false end.

Definition is_choice_or_component (node : Node) : bool :=
  match node_class_of node with
  | AutoSklearnChoice | AutoSklearnComponent => true
  | OtherClass => false
  end.

Definition pipeline_steps : Type := list (string * Node).

(** The module [autosklearn.pipeline.create_searchspace_util], which is not
    among the sources, by the signatures its callers rely on. *)
Class SearchSpaceUtil : Type := {
  get_match_array :
    pipeline_steps -> dict value -> selector -> selector -> result ndarray;
  find_active_choices :
    ndarray -> Node -> nat -> dict value ->
    option (list string) -> option (list string) -> result (list string);
  add_forbidden :
    ConfigurationSpace -> pipeline_steps -> ndarray -> dict value ->
    selector -> selector -> result ConfigurationSpace
}.

(** scikit-learn's [check_random_state] and the generators it returns; a
    seed is a data value or a generator instance. *)
Class RandomStates : Type := {
  RandomState : Type;
  check_random_state : value + RandomState -> result RandomState
}.

(** The attributes of a [BasePipeline] object.  [configuration] is assigned
    by [set_hyperparameters] and [random_state] at the end of [__init__];
    until then they are unset. *)
Record BasePipeline {RS : RandomStates} : Type := {
  steps : pipeline_steps;
  dataset_properties_ : dict value;
  configuration_ : Configuration ConfigurationSpace;
  configuration : option (Configuration ConfigurationSpace);
  random_state : option RandomState
}.

Definition set_random_state {RS : RandomStates} (self : BasePipeline)
    (rs : RandomState) : BasePipeline :=
  {| steps := steps self;
     dataset_properties_ := dataset_properties_ self;
     configuration_ := configuration_ self;
     configuration := configuration self;
     random_state := Some rs |}.

(** What a concrete subclass provides. *)
Class PipelineClass : Type := {
  (** [self.__class__.__name__] *)
  class_name : string;
  (** [self._get_pipeline()] *)
  _get_pipeline : result pipeline_steps;
  (** [self.get_hyperparameter_search_space(dataset_properties=...,
      include=..., exclude=...)] for the given [self.steps]: the mapping that
      was passed as the call leaves it (nothing if none was passed), and what
      the call returns or raises *)
  get_hyperparameter_search_space :
    pipeline_steps -> option (dict value) -> option selector -> option selector ->
    option (dict value) * result ConfigurationSpace
}.

End Objects.

(* ================================================================== *)
(** * [BasePipeline._get_hyperparameter_search_space] *)
(* ================================================================== *)

Section SearchSpaceDef.
Context {CS : ConfigSpace} {U : SearchSpaceUtil}.

(** ['Invalid key in include: %s; should be one of %s' % (key, keys)], and
    the same for "exclude". *)
Definition invalid_key_message (what key : string) (keys : list string) : string :=
  "Invalid key in " ++ what ++ ": " ++ key ++ "; should be one of " ++ str_list keys.

(** [for key in sel: if key not in keys: raise ValueError(...)], for the
    selector called [what] ("include" or "exclude"). *)
Fixpoint check_keys (what : string) (sel_keys keys : list string) : result unit :=
  match sel_keys with
  | [] => Ok tt
  | key :: rest =>
      if negb (list_contains keys key)
      then Raise (ValueError (invalid_key_message what key keys))
      else check_keys what rest keys
  end.

(** [if sel is None: sel = {}] *)
Definition or_empty (sel : option selector) : selector :=
  match sel with None => [] | Some s => s end.

(** The two defaults, written into the mapping that was passed. *)
Definition set_default_properties (dataset_properties : dict value) : dict value :=
  let d1 := if negb (dict_contains dataset_properties "sparse")
            then dict_set dataset_properties "sparse" (VBool false)
            else dataset_properties in
  if negb (dict_contains d1 "signed")
  then dict_set d1 "signed" (VBool false)
  else d1.

(** The loop [for node_idx, n_ in enumerate(pipeline)], from [node_idx] on. *)
Fixpoint add_nodes (cs : ConfigurationSpace) (matches : ndarray)
    (dataset_properties : dict value) (include exclude : selector)
    (node_idx : nat) (pipeline : pipeline_steps) : result ConfigurationSpace :=
  match pipeline with
  | [] => Ok cs
  | (node_name, node) :: rest =>
      cs' <- (if negb (is_choice node) then
                sub <- node_search_space node dataset_properties None ;;
                add_configuration_space cs node_name sub
              else
                choices_list <- find_active_choices matches node node_idx
                                  dataset_properties
                                  (dict_get include node_name)
                                  (dict_get exclude node_name) ;;
                sub_config_space <- node_search_space node dataset_properties
                                      (Some choices_list) ;;
                add_configuration_space cs node_name sub_config_space) ;;
      add_nodes cs' matches dataset_properties include exclude (S node_idx) rest
  end.

Definition not_binary_message (matches : ndarray) : string :=
  "'matches' is not binary; " ++ str_int (np_sum matches) ++ " <= "
    ++ str_int (np_size matches) ++ ", " ++ str_tuple (shape matches).

(** Everything after the two defaults were written. *)
Definition build_search_space (cs : ConfigurationSpace)
    (dataset_properties : dict value) (exclude include : selector)
    (pipeline : pipeline_steps) : result ConfigurationSpace :=
  matches <- get_match_array pipeline dataset_properties include exclude ;;
  if np_sum matches =? 0 then Raise (AssertionError "No valid pipeline found.")
  else if negb (np_sum matches <=? np_size matches)
  then Raise (AssertionError (not_binary_message matches))
  else
    cs' <- add_nodes cs matches dataset_properties include exclude 0%nat pipeline ;;
    if np_sum matches <? np_size matches
    then add_forbidden cs' pipeline matches dataset_properties include exclude
    else Ok cs'.

(** [_get_hyperparameter_search_space(self, cs, dataset_properties, exclude,
    include, pipeline)].  The first component is the caller's
    [dataset_properties] mapping as the call leaves it, whether it returns
    or raises; the second is what the call returns or raises. *)
Definition _get_hyperparameter_search_space (cs : ConfigurationSpace)
    (dataset_properties : dict value) (exclude include : option selector)
    (pipeline : pipeline_steps) : dict value * result ConfigurationSpace :=
  let include := or_empty include in
  let keys := map fst pipeline in
  match check_keys "include" (dict_keys include) keys with
  | Raise e => (dataset_properties, Raise e)
  | Ok _ =>
      let exclude := or_empty exclude in
      let keys := map fst pipeline in
      match check_keys "exclude" (dict_keys exclude) keys with
      | Raise e => (dataset_properties, Raise e)
      | Ok _ =>
          let dataset_properties := set_default_properties dataset_properties in
          (dataset_properties,
           build_search_space cs dataset_properties exclude include pipeline)
      end
  end.

End SearchSpaceDef.

(* ================================================================== *)
(** * [BasePipeline.set_hyperparameters] and [BasePipeline.__init__] *)
(* ================================================================== *)

Definition is_line_boundary (c : ascii) : bool :=
  let n := nat_of_ascii c in
  ((n =? 10) || (n =? 11) || (n =? 12) || (n =? 13)
   || (n =? 28) || (n =? 29) || (n =? 30))%nat.

(** [s.splitlines()] for ASCII text; [cur] is the line read so far. *)
Fixpoint splitlines_from (cur s : string) : list string :=
  match s with
  | EmptyString => if (String.length cur =? 0)%nat then [] else [cur]
  | String c s' =>
      if is_line_boundary c then
        match s' with
        | EmptyString => [cur]
        | String c' s'' =>
            if ((nat_of_ascii c =? 13) && (nat_of_ascii c' =? 10))%nat
            then cur :: splitlines_from EmptyString s''
            else cur :: splitlines_from EmptyString s'
        end
      else splitlines_from (cur ++ String c EmptyString) s'
  end.

Definition splitlines (s : string) : list string := splitlines_from EmptyString s.

(** The [config] argument of the constructor. *)
Inductive config_arg (Space : Type) : Type :=
| ConfigNone
| ConfigDict (d : dict value)
| ConfigObject (c : Configuration Space).
Arguments ConfigNone {Space}.
Arguments ConfigDict {Space} d.
Arguments ConfigObject {Space} c.

Section PipelineDef.
Context {CS : ConfigSpace} {RS : RandomStates} {P : PipelineClass}.

(** The dict [sub_config_dict] that the inner loop fills for a node. *)
Definition sub_config_dict (node_name : string)
    (configuration : Configuration ConfigurationSpace) : dict value :=
  fold_left
    (fun d param =>
       if startswith param (node_name ++ ":") then
         let value := config_getitem configuration param in
         let new_name := replace_first param (node_name ++ ":") EmptyString in
         dict_set d new_name value
       else d)
    (config_iter configuration) [].

(** One turn of the loop over [self.steps]: the node as the turn leaves it. *)
Definition set_node (dataset_properties_ : dict value)
    (configuration : Configuration ConfigurationSpace)
    (node_name : string) (node : Node) : result Node :=
  sub_configuration_space <- node_search_space node dataset_properties_ None ;;
  sub_configuration <- new_Configuration sub_configuration_space
                         (sub_config_dict node_name configuration) ;;
  if is_choice_or_component node
  then Ok (node_set_hyperparameters node sub_configuration)
  else Raise (NotImplementedError "Not supported yet!").

(** What a turn that returns has done to a step: the sub-space was built
    from the dataset properties, a [Configuration] over it was made from the
    values under the step's prefix, and the node took it. *)
Definition routed (dataset_properties_ : dict value)
    (configuration : Configuration ConfigurationSpace)
    (before after : string * Node) : Prop :=
  fst after = fst before
  /\ is_choice_or_component (snd before) = true
  /\ exists sub_configuration_space sub_configuration,
       node_search_space (snd before) dataset_properties_ None
       = Ok sub_configuration_space
       /\ new_Configuration sub_configuration_space
            (sub_config_dict (fst before) configuration)
          = Ok sub_configuration
       /\ snd after = node_set_hyperparameters (snd before) sub_configuration.

Fixpoint set_nodes (dataset_properties_ : dict value)
    (configuration : Configuration ConfigurationSpace)
    (nodes : pipeline_steps) : result pipeline_steps :=
  match nodes with
  | [] => Ok []
  | (node_name, node) :: rest =>
      node' <- set_node dataset_properties_ configuration node_name node ;;
      rest' <- set_nodes dataset_properties_ configuration rest ;;
      Ok ((node_name, node') :: rest')
  end.

(** [set_hyperparameters(self, configuration)]: the object as a call that
    returns leaves it. *)
Definition set_hyperparameters (self : BasePipeline)
    (c : Configuration ConfigurationSpace) : result BasePipeline :=
  steps' <- set_nodes (dataset_properties_ self) c (steps self) ;;
  Ok {| steps := steps';
        dataset_properties_ := dataset_properties_ self;
        configuration_ := configuration_ self;
        configuration := Some c;
        random_state := random_state self |}.

(** The text of the error for a configuration of another space. *)
Definition mismatch_message (cs cs' : ConfigurationSpace) : string :=
  let diff := unified_diff (splitlines (space_str cs)) (splitlines (space_str cs')) in
  "Configuration passed does not come from the same configuration space. Differences are: "
    ++ join nl diff.

(** The branch [config is not None], once [cs] is built. *)
Definition check_config (cs : ConfigurationSpace)
    (config : Configuration ConfigurationSpace)
  : result (Configuration ConfigurationSpace) :=
  if space_ne cs (configuration_space config)
  then Raise (ValueError (mismatch_message cs (configuration_space config)))
  else Ok config.

(** The object as [__init__] has it when it calls [set_hyperparameters]. *)
Definition before_set_hyperparameters (steps : pipeline_steps)
    (dataset_properties_ : dict value)
    (configuration_ : Configuration ConfigurationSpace) : BasePipeline :=
  {| steps := steps;
     dataset_properties_ := dataset_properties_;
     configuration_ := configuration_;
     configuration := None;
     random_state := None |}.

(** [self.dataset_properties_] after the search space was built: a fresh
    empty dict, or the mapping that was passed, which is the same object. *)
Definition stored_dataset_properties (dataset_properties after : option (dict value))
  : dict value :=
  match dataset_properties with
  | None => []
  | Some d => match after with Some d' => d' | None => d end
  end.

(** [__init__(self, config, pipeline, dataset_properties, include, exclude,
    random_state)].  The two [print] calls before the [ValueError] write to
    the standard output only. *)
Definition __init__ (config : config_arg ConfigurationSpace)
    (pipeline : option pipeline_steps) (dataset_properties : option (dict value))
    (include exclude : option selector)
    (random_state : option (value + RandomState)) : result BasePipeline :=
  steps <- match pipeline with
           | None => _get_pipeline
           | Some p => Ok p
           end ;;
  let built := get_hyperparameter_search_space steps dataset_properties
                 include exclude in
  let dataset_properties_ :=
    stored_dataset_properties dataset_properties (fst built) in
  cs <- snd built ;;
  configuration_ <- match config with
                    | ConfigNone => get_default_configuration cs
                    | ConfigDict d => config <- new_Configuration cs d ;;
                                      check_config cs config
                    | ConfigObject config => check_config cs config
                    end ;;
  self <- set_hyperparameters
            (before_set_hyperparameters steps dataset_properties_ configuration_)
            configuration_ ;;
  rs <- match random_state with
        | None => check_random_state (inl (VInt 1))
        | Some seed => check_random_state seed
        end ;;
  Ok (set_random_state self rs).

(* ================================================================== *)
(** * [BasePipeline.__repr__] *)
(* ================================================================== *)

(** The local dict [configuration]: the values that are not [None]. *)
Definition repr_configuration (c : Configuration ConfigurationSpace) : dict value :=
  fold_left
    (fun d hp_name =>
       if is_not_None (config_getitem c hp_name)
       then dict_set d hp_name (config_getitem c hp_name)
       else d)
    (config_iter c) [].

Definition getitem (d : dict value) (k : string) : value :=
  match dict_get d k with Some v => v | None => VNone end.

Definition configuration_string (configuration : dict value) : string :=
  join_empty
    [ ("config={" ++ nl ++ "  ")%string;
      join ("," ++ nl ++ "  ")
        (map (fun hp_name =>
                ("'" ++ hp_name ++ "': " ++ repr (getitem configuration hp_name))%string)
             (sorted (dict_keys configuration)));
      "}" ].

(** The pieces appended for the items of [dataset_properties_], from the
    [i]-th on. *)
Fixpoint dataset_properties_items (i : nat) (items : dict value) : list string :=
  match items with
  | [] => []
  | (k, v) :: rest =>
      (if negb (i =? 0)%nat then ("," ++ nl ++ "  ")%string else (nl ++ "  ")%string)
      :: (if isinstance_str v
          then ("'" ++ k ++ "': '" ++ str v ++ "'")%string
          else ("'" ++ k ++ "': " ++ str v)%string)
      :: dataset_properties_items (S i) rest
  end.

Definition __repr__ (self : BasePipeline) : string :=
  let configuration := repr_configuration (configuration_ self) in
  let configuration_string := configuration_string configuration in
  if (0 <? List.length (dataset_properties_ self))%nat then
    let dataset_properties_string :=
      join_empty (["dataset_properties={"]
                  ++ dataset_properties_items 0 (dataset_properties_ self)
                  ++ ["}"]) in
    (class_name ++ "(" ++ str_dict configuration ++ "," ++ nl
       ++ dataset_properties_string ++ ")")%string
  else
    (class_name ++ "(" ++ configuration_string ++ ")")%string.

End PipelineDef.

(* ================================================================== *)
(** * A small concrete pipeline *)
(* ================================================================== *)

(** Instances of the interfaces, small enough to evaluate: a two-step
    pipeline (an imputation component and a classifier choice) over spaces
    that are lists of hyperparameter names. *)
Module Sample.

(** A fitted pipeline that predicts each row on its own. *)
Definition doubling : Fitted :=
  {| Row := Z; Raw := Z; Out := Z;
     super_predict := map (fun x => 2 * x);
     astype := fun r => r;
     num_targets := 1;
     zero_scalar := 0;
     zero_row := fun _ => 0;
     broadcast_message := fun _ _ => "could not broadcast input array" |}.

(** A pipeline whose prediction for a row depends on the other rows passed
    with it: every row is predicted as the number of rows. *)
Definition counting : Fitted :=
  {| Row := Z; Raw := Z; Out := Z;
     super_predict := fun X => map (fun _ => Z.of_nat (List.length X)) X;
     astype := fun r => r;
     num_targets := 1;
     zero_scalar := 0;
     zero_row := fun _ => 0;
     broadcast_message := fun _ _ => "could not broadcast input array" |}.

Definition names_eqb (a b : list string) : bool :=
  if list_eq_dec string_dec a b then true else false.

Definition spaces : ConfigSpace :=
  {| ConfigurationSpace := list string;
     space_ne := fun a b => negb (names_eqb a b);
     space_str := fun a => join nl a;
     add_configuration_space := fun cs prefix sub =>
       Ok (cs ++ map (fun n => (prefix ++ ":" ++ n)%string) sub);
     get_default_configuration := fun cs =>
       Ok {| configuration_space := cs;
             values := map (fun n => (n, VInt 0)) cs |};
     new_Configuration := fun cs d =>
       if forallb (list_contains cs) (dict_keys d)
       then Ok {| configuration_space := cs; values := d |}
       else Raise (ValueError "unknown hyperparameter");
     unified_diff := fun a b =>
       map (fun l => ("-" ++ l)%string) a ++ map (fun l => ("+" ++ l)%string) b |}.

#[local] Existing Instance spaces.

Definition imputation : @Node spaces :=
  {| node_class_of := AutoSklearnComponent;
     node_search_space := fun _ _ => Ok ["strategy"];
     node_configuration := None |}.

Definition classifier : @Node spaces :=
  {| node_class_of := AutoSklearnChoice;
     node_search_space := fun _ _ => Ok ["__choice__"; "C"];
     node_configuration := None |}.

Definition pipeline : @pipeline_steps spaces :=
  [("imputation", imputation); ("classifier", classifier)].

Definition all_true : ndarray :=
  {| shape := [2%nat]; data := [1; 1]; shape_data := eq_refl |}.

Definition all_false : ndarray :=
  {| shape := [2%nat]; data := [0; 0]; shape_data := eq_refl |}.

(** No classifier of this pipeline takes sparse data. *)
Definition util : @SearchSpaceUtil spaces :=
  {| get_match_array := fun _ dataset_properties _ _ =>
       match dict_get dataset_properties "sparse" with
       | Some (VBool true) => Ok all_false
       | _ => Ok all_true
       end;
     find_active_choices := fun _ _ _ _ _ _ => Ok ["svm"; "random_forest"];
     add_forbidden := fun cs _ _ _ _ _ => Ok cs |}.

#[local] Existing Instance util.

Definition generators : RandomStates :=
  {| RandomState := Z;
     check_random_state := fun seed =>
       match seed with
       | inl (VInt z) => Ok z
       | inr rs => Ok rs
       | inl _ => Raise (ValueError "cannot be used to seed a numpy.random.RandomState instance")
       end |}.

#[local] Existing Instance generators.

(** A subclass whose search space is the one [_get_hyperparameter_search_space]
    builds over an empty space. *)
Definition classification : @PipelineClass spaces :=
  {| class_name := "SimpleClassificationPipeline";
     _get_pipeline := Ok pipeline;
     get_hyperparameter_search_space := fun steps dataset_properties include exclude =>
       let passed := match dataset_properties with Some d => d | None => [] end in
       let built := @_get_hyperparameter_search_space spaces util
                      [] passed exclude include steps in
       (match dataset_properties with Some _ => Some (fst built) | None => None end,
        snd built) |}.

(** The space of the sample pipeline, and two configurations in it. *)
Definition space : list string :=
  ["imputation:strategy"; "classifier:__choice__"; "classifier:C"].

Definition config : Configuration (@ConfigurationSpace spaces) :=
  {| configuration_space := space;
     values := [("imputation:strategy", VStr "mean");
                ("classifier:__choice__", VStr "svm");
                ("classifier:C", VInt 3)] |}.

Definition foreign_config : Configuration (@ConfigurationSpace spaces) :=
  {| configuration_space := ["classifier:C"];
     values := [("classifier:C", VInt 3)] |}.

(** A constructed pipeline, for the textual representation. *)
Definition shown : @BasePipeline spaces generators :=
  {| steps := pipeline;
     dataset_properties_ := [("sparse", VBool false)];
     configuration_ := {| configuration_space := ["b"; "a"; "c"];
                          values := [("b", VInt 1); ("a", VInt 2); ("c", VNone)] |};
     configuration := None;
     random_state := Some 1 |}.

(** The same pipeline with no dataset properties. *)
Definition shown_bare : @BasePipeline spaces generators :=
  {| steps := pipeline;
     dataset_properties_ := [];
     configuration_ := configuration_ shown;
     configuration := None;
     random_state := Some 1 |}.

End Sample.

(* ================================================================== *)
(** * [BasePipeline.pre_transform] and the abstract methods *)
(* ================================================================== *)

(** [s.replace(old, new)] for a pattern [old] of one character: every
    occurrence is replaced. *)
Fixpoint replace_char (s : string) (old : ascii) (new : string) : string :=
  match s with
  | EmptyString => EmptyString
  | String c s' =>
      if Ascii.eqb c old then (new ++ replace_char s' old new)%string
      else String c (replace_char s' old new)
  end.

Definition colon : ascii := ascii_of_nat 58.

(** The [fit_params] argument: [None], a dict, or a value of another type. *)
Inductive fit_params_arg (V : Type) : Type :=
| FitNone
| FitDict (d : dict V)
| FitOther (v : value).
Arguments FitNone {V}.
Arguments FitDict {V} d.
Arguments FitOther {V} v.

(** [{key.replace(":", "__"): value for key, value in fit_params.items()}] *)
Definition rename_fit_params {V} (fit_params : dict V) : dict V :=
  fold_left (fun d kv => dict_set d (replace_char (fst kv) colon "__") (snd kv))
            fit_params [].

(** The dict [pre_transform] passes on as keyword arguments. *)
Definition prepare_fit_params {V} (fit_params : fit_params_arg V) : dict V :=
  match fit_params with
  | FitDict d => rename_fit_params d
  | _ => []
  end.

(** scikit-learn's [Pipeline._pre_transform(X, y, **fit_params)], by what it
    returns: the transformed data and the parameters left for the last
    step. *)
Class Transformers : Type := {
  Data : Type;
  Targets : Type;
  Param : Type;
  _pre_transform : Data -> Targets -> dict Param -> result (Data * dict Param)
}.

(** [pre_transform(self, X, y, fit_params=None, init_params=None)] *)
Definition pre_transform {T : Transformers} (X : Data) (y : Targets)
    (fit_params : fit_params_arg Param) : result (Data * dict Param) :=
  _pre_transform X y (prepare_fit_params fit_params).

(** The class [BasePipeline] itself: [_get_pipeline] and
    [get_hyperparameter_search_space] raise [NotImplementedError()], and the
    mapping passed is not touched. *)
Definition abstract_base {CS : ConfigSpace} : PipelineClass :=
  {| class_name := "BasePipeline";
     _get_pipeline := Raise (NotImplementedError EmptyString);
     get_hyperparameter_search_space := fun _ dataset_properties _ _ =>
       (dataset_properties, Raise (NotImplementedError EmptyString)) |}.

(** The text [__repr__] shows for one hyperparameter. *)
Definition hyperparameter_text (configuration : dict value) (hp_name : string)
  : string :=
  ("'" ++ hp_name ++ "': " ++ repr (getitem configuration hp_name))%string.

(** The entries the two defaults add to a mapping. *)
Definition missing_defaults (dataset_properties : dict value) : dict value :=
  (if dict_contains dataset_properties "sparse" then []
   else [("sparse", VBool false)])
  ++ (if dict_contains dataset_properties "signed" then []
      else [("signed", VBool false)]).

(** A key of a selector that names no step. *)
Definition first_invalid_key (sel : selector) (keys : list string) : option string :=
  find (fun key => negb (list_contains keys key)) (dict_keys sel).

(** More of the sample pipeline. *)
Module SampleMore.

#[local] Existing Instance Sample.spaces.
#[local] Existing Instance Sample.generators.

(** A node of a class the pipeline does not know. *)
Definition foreign_node : @Node Sample.spaces :=
  {| node_class_of := OtherClass;
     node_search_space := fun _ _ => Ok ["alpha"];
     node_configuration := None |}.

Definition foreign_pipeline : @BasePipeline Sample.spaces Sample.generators :=
  {| steps := [("imputation", Sample.imputation); ("extra", foreign_node)];
     dataset_properties_ := [];
     configuration_ := Sample.config;
     configuration := None;
     random_state := Some 1 |}.

(** A match array that counts, and a search-space module that returns it. *)
Definition counts : ndarray :=
  {| shape := [2%nat]; data := [2; 1]; shape_data := eq_refl |}.

Definition counting_util : @SearchSpaceUtil Sample.spaces :=
  {| get_match_array := fun _ _ _ _ => Ok counts;
     find_active_choices := fun _ _ _ _ _ _ => Ok ["svm"];
     add_forbidden := fun cs _ _ _ _ _ => Ok cs |}.

End SampleMore.

(* ================================================================== *)
(** * Properties of [predict] *)
(* ================================================================== *)

(** ** The batch count in double precision *)

Lemma round_half_even_bounds (num den : Z) :
  0 < den ->
  num / den <= round_half_even num den <= num / den + 1
  /\ (2 * (num mod den) < den -> round_half_even num den = num / den)
  /\ (den <= 2 * (num mod den) -> Z.odd (num / den) = true \/ den < 2 * (num mod den) ->
      round_half_even num den = num / den + 1).
Proof.
  intros Hden. unfold round_half_even.
  destruct (Z.ltb_spec (2 * (num mod den)) den) as [Hlt | Hge].
  - split; [lia|]. split; [reflexivity | lia].
  - destruct (Z.ltb_spec den (2 * (num mod den))) as [Hgt | Hle].
    + split; [lia|]. split; [lia | reflexivity].
    + rewrite <- Z.negb_odd. destruct (Z.odd (num / den)); cbn [negb].
      * split; [lia|]. split; [lia | reflexivity].
      * split; [lia|]. split; [lia|]. intros _ [H | H]; [discriminate | lia].
Qed.

Lemma round_half_even_exact (k den : Z) :
  0 < den -> round_half_even (k * den) den = k.
Proof.
  intros Hden. destruct (round_half_even_bounds (k * den) den Hden) as (_ & H & _).
  rewrite Z.mod_mul, Z.div_mul in H by lia. apply H. lia.
Qed.

Lemma float_of_int_small (n : Z) : n < 2 ^ 53 -> float_of_int n = Ok n.
Proof.
  intros Hn. unfold float_of_int.
  destruct (Z.ltb_spec n (2 ^ 53)); [reflexivity | lia].
Qed.

Lemma pow2_pos (e : Z) : 0 <= e -> 0 < 2 ^ e.
Proof. intros. apply Z.pow_pos_nonneg; lia. Qed.

(** Where [float(b)] is defined, and that it keeps large ints large. *)
Lemma float_of_int_large (b : Z) :
  2 ^ 53 <= b -> b < float_overflow_bound ->
  exists y, float_of_int b = Ok y /\ 2 ^ 53 <= y.
Proof.
  intros Hlo Hhi. unfold float_of_int, float_overflow_bound in *.
  destruct (Z.ltb_spec b (2 ^ 53)) as [Hlt | _]; [lia|].
  assert (Hb : 0 < b) by (pose proof (pow2_pos 53); lia).
  destruct (Z.log2_spec b Hb) as [Hl1 Hl2].
  assert (HL53 : 53 <= Z.log2 b) by (apply Z.log2_le_pow2; lia).
  assert (HL1024 : Z.log2 b < 1024).
  { apply Z.log2_lt_pow2; [lia|]. pose proof (pow2_pos 970). lia. }
  set (L := Z.log2 b) in *. set (e := L - 52).
  assert (He : 1 <= e) by (unfold e; lia).
  set (P := 2 ^ e). assert (HP : 0 < P) by (apply pow2_pos; lia).
  assert (HLP : 2 ^ L = 2 ^ 52 * P).
  { unfold P, e. rewrite <- Z.pow_add_r by lia. f_equal. lia. }
  assert (HLP' : 2 ^ Z.succ L = 2 ^ 53 * P).
  { unfold P, e. rewrite <- Z.pow_add_r by lia. f_equal. lia. }
  destruct (round_half_even_bounds b P HP) as (Hm & Hdown & _).
  pose proof (Z.div_mod b P ltac:(lia)) as Hdm.
  pose proof (Z.mod_pos_bound b P HP) as Hmod.
  set (m := round_half_even b P) in *. set (q := b / P) in *. set (r := b mod P) in *.
  assert (Hq : 2 ^ 52 <= q < 2 ^ 53).
  { split.
    - apply Z.div_le_lower_bound; [exact HP | lia].
    - apply Z.div_lt_upper_bound; [exact HP | lia]. }
  assert (H52 : 0 < 2 ^ 52) by (apply pow2_pos; lia).
  assert (Hval : m * P < 2 ^ 1024).
  { destruct (Z.eq_dec L 1023) as [HL | HL].
    - assert (HPe : P = 2 ^ 971) by (unfold P, e; rewrite HL; reflexivity).
      assert (H1024 : 2 ^ 1024 = 2 ^ 53 * P) by (rewrite HPe, <- Z.pow_add_r by lia; reflexivity).
      assert (H970 : P = 2 * 2 ^ 970) by (rewrite HPe; change 971 with (1 + 970); rewrite Z.pow_add_r by lia; reflexivity).
      assert (Hm' : m <= 2 ^ 53 - 1).
      { destruct (Z.eq_dec q (2 ^ 53 - 1)) as [Hqe | Hqe]; [| lia].
        rewrite Hdown; [lia|]. nia. }
      nia.
    - assert (HPle : 2 ^ 53 * P <= 2 ^ 1023).
      { rewrite <- HLP'. apply Z.pow_le_mono_r; lia. }
      assert (2 ^ 1023 < 2 ^ 1024) by (apply Z.pow_lt_mono_r; lia).
      nia. }
  destruct (Z.leb_spec (2 ^ 1024) (m * P)) as [Hov | _]; [lia|].
  exists (m * P). split; [reflexivity|].
  assert (2 ^ 53 = 2 ^ 52 * 2) by reflexivity. nia.
Qed.

(** From the bound on, [float(b)] raises. *)
Lemma float_of_int_overflow (b : Z) :
  float_overflow_bound <= b ->
  float_of_int b = Raise (OverflowError "int too large to convert to float").
Proof.
  intros Hhi. unfold float_of_int, float_overflow_bound in *.
  assert (H53 : 2 ^ 53 <= b).
  { assert (2 ^ 53 * 2 ^ 971 = 2 ^ 1024) by (rewrite <- Z.pow_add_r by lia; reflexivity).
    assert (2 ^ 971 = 2 * 2 ^ 970) by (change 971 with (1 + 970); rewrite Z.pow_add_r by lia; reflexivity).
    pose proof (pow2_pos 970 ltac:(lia)). pose proof (pow2_pos 53 ltac:(lia)). nia. }
  destruct (Z.ltb_spec b (2 ^ 53)) as [Hlt | _]; [lia|].
  assert (Hb : 0 < b) by (pose proof (pow2_pos 53); lia).
  destruct (Z.log2_spec b Hb) as [Hl1 Hl2].
  assert (HL : 1023 <= Z.log2 b).
  { apply Z.log2_le_pow2; [lia|].
    assert (2 ^ 1024 = 2 * 2 ^ 1023) by (change 1024 with (1 + 1023); rewrite Z.pow_add_r by lia; reflexivity).
    assert (2 ^ 1023 = 2 ^ 53 * 2 ^ 970) by (rewrite <- Z.pow_add_r by lia; reflexivity).
    pose proof (pow2_pos 970 ltac:(lia)). nia. }
  set (L := Z.log2 b) in *. set (e := L - 52).
  set (P := 2 ^ e). assert (HP : 0 < P) by (apply pow2_pos; unfold e; lia).
  assert (HLP : 2 ^ L = 2 ^ 52 * P).
  { unfold P, e. rewrite <- Z.pow_add_r by lia. f_equal. lia. }
  destruct (round_half_even_bounds b P HP) as (Hm & _ & Hup).
  pose proof (Z.div_mod b P ltac:(lia)) as Hdm.
  pose proof (Z.mod_pos_bound b P HP) as Hmod.
  set (m := round_half_even b P) in *. set (q := b / P) in *. set (r := b mod P) in *.
  assert (Hq : 2 ^ 52 <= q) by (apply Z.div_le_lower_bound; [exact HP | lia]).
  assert (Hval : 2 ^ 1024 <= m * P).
  { destruct (Z.eq_dec L 1023) as [HLe | HLe].
    - assert (HPe : P = 2 ^ 971) by (unfold P, e; rewrite HLe; reflexivity).
      assert (H1024 : 2 ^ 1024 = 2 ^ 53 * P) by (rewrite HPe, <- Z.pow_add_r by lia; reflexivity).
      assert (H970 : P = 2 * 2 ^ 970) by (rewrite HPe; change 971 with (1 + 970); rewrite Z.pow_add_r by lia; reflexivity).
      assert (Hl2' : b < 2 ^ 1024) by (rewrite HLe in Hl2; exact Hl2).
      assert (Hqlt : q < 2 ^ 53) by (apply Z.div_lt_upper_bound; [exact HP | lia]).
      assert (Hqe : q = 2 ^ 53 - 1) by nia.
      assert (Hr : 2 ^ 970 <= r) by nia.
      assert (Hm' : m = q + 1).
      { apply Hup; [lia|]. left. rewrite Hqe. reflexivity. }
      nia.
    - assert (HPge : 2 ^ 972 <= P) by (apply Z.pow_le_mono_r; unfold e; lia).
      assert (2 ^ 1024 = 2 ^ 52 * 2 ^ 972) by (rewrite <- Z.pow_add_r by lia; reflexivity).
      assert (0 < 2 ^ 52) by (apply pow2_pos; lia).
      nia. }
  destruct (Z.leb_spec (2 ^ 1024) (m * P)) as [_ | Hno]; [reflexivity | lia].
Qed.

Lemma ceil_div_small (x y : Z) :
  0 <= x -> x < y -> ceil_div x y = if x =? 0 then 0 else 1.
Proof.
  intros Hx Hxy. unfold ceil_div. destruct (Z.eqb_spec x 0) as [-> | Hne].
  - apply Z.div_small. lia.
  - symmetry. apply Z.div_unique with (r := x - 1). left. lia. lia.
Qed.

(** The binade of a quotient that is at least one. *)
Lemma quotient_binade (x y : Z) :
  0 < y -> y <= x ->
  let d := Z.log2 x - Z.log2 y in
  let e := if y * 2 ^ d <=? x then d else d - 1 in
  0 <= e /\ y * 2 ^ e <= x < y * 2 ^ (e + 1).
Proof.
  intros Hy Hyx d e.
  assert (Hx : 0 < x) by lia.
  destruct (Z.log2_spec x Hx) as [Hx1 Hx2].
  destruct (Z.log2_spec y Hy) as [Hy1 Hy2].
  pose proof (Z.log2_nonneg y) as Hly.
  assert (Hd : 0 <= d) by (unfold d; pose proof (Z.log2_le_mono y x Hyx); lia).
  assert (Hxd : 2 ^ Z.log2 x = 2 ^ Z.log2 y * 2 ^ d).
  { unfold d. rewrite <- Z.pow_add_r by lia. f_equal. lia. }
  assert (Hpd : 0 < 2 ^ d) by (apply pow2_pos; exact Hd).
  assert (Hsucc : forall k, 0 <= k -> 2 ^ (k + 1) = 2 * 2 ^ k)
    by (intros k Hk; rewrite Z.pow_add_r by lia; change (2 ^ 1) with 2; lia).
  rewrite <- !Z.add_1_r in *. rewrite (Hsucc _ (Z.log2_nonneg x)) in Hx2.
  rewrite (Hsucc _ Hly) in Hy2.
  subst e. destruct (Z.leb_spec (y * 2 ^ d) x) as [Hle | Hgt].
  - split; [exact Hd|]. split; [exact Hle|]. rewrite (Hsucc _ Hd). nia.
  - assert (Hd1 : 1 <= d).
    { destruct (Z.eq_dec d 0) as [Hd0 | Hd0]; [| lia].
      rewrite Hd0 in Hgt. change (2 ^ 0) with 1 in Hgt. lia. }
    split; [lia|]. replace (d - 1 + 1) with d by lia. split; [| exact Hgt].
    assert (Hdd : 2 ^ d = 2 * 2 ^ (d - 1)).
    { replace d with ((d - 1) + 1) at 1 by lia. apply Hsucc. lia. }
    assert (0 < 2 ^ (d - 1)) by (apply pow2_pos; lia). nia.
Qed.

(** For doubles below [2 ^ 53] the rounded quotient has the ceiling of the
    exact quotient. *)
Lemma ceil_of_quotient_exact (x y : Z) :
  0 <= x < 2 ^ 53 -> 0 < y ->
  ceil_of_quotient x y = ceil_div x y.
Proof.
  intros [Hx0 Hx53] Hy. unfold ceil_of_quotient.
  destruct (Z.eqb_spec x 0) as [-> | Hx].
  { symmetry. unfold ceil_div. apply Z.div_small. lia. }
  destruct (Z.ltb_spec x y) as [Hxy | Hyx].
  { rewrite ceil_div_small by lia. destruct (Z.eqb_spec x 0); [lia | reflexivity]. }
  destruct (quotient_binade x y Hy Hyx) as (He0 & Hlo & Hhi).
  set (e := if y * 2 ^ (Z.log2 x - Z.log2 y) <=? x
            then Z.log2 x - Z.log2 y else Z.log2 x - Z.log2 y - 1) in *.
  assert (Hpe : 0 < 2 ^ e) by (apply pow2_pos; exact He0).
  assert (He53 : e < 53).
  { destruct (Z.lt_ge_cases e 53) as [H | H]; [exact H | exfalso].
    assert (2 ^ 53 <= 2 ^ e) by (apply Z.pow_le_mono_r; lia). nia. }
  pose proof (Z.div_mod x y ltac:(lia)) as Hdm.
  pose proof (Z.mod_pos_bound x y Hy) as Hmod.
  set (k := x / y) in *. set (r := x mod y) in *.
  assert (Hceil : ceil_div x y = if r =? 0 then k else k + 1).
  { unfold ceil_div. destruct (Z.eqb_spec r 0) as [Hr | Hr].
    - symmetry. apply Z.div_unique with (r := y - 1); lia.
    - symmetry. apply Z.div_unique with (r := r - 1); lia. }
  rewrite Hceil.
  destruct (Z.leb_spec 52 e) as [He52 | He52].
  - assert (e = 52) as -> by lia. change (2 ^ (52 - 52)) with 1.
    rewrite !Z.mul_1_r.
    assert (y = 1) as Hy1.
    { assert (2 ^ 53 = 2 * 2 ^ 52) by reflexivity. nia. }
    subst y. assert (r = 0) as -> by lia. cbn [Z.eqb].
    replace x with (x * 1) at 1 by lia. rewrite round_half_even_exact by lia. lia.
  - set (s := 2 ^ (52 - e)).
    assert (Hs : 0 < s) by (apply pow2_pos; lia).
    assert (Hes : 2 ^ 53 = 2 ^ e * (2 * s)).
    { unfold s. replace 53 with (e + (1 + (52 - e))) by lia.
      rewrite !Z.pow_add_r by lia. change (2 ^ 1) with 2. lia. }
    assert (Hys : y < 2 * s) by nia.
    destruct (round_half_even_bounds (x * s) y Hy) as (Hm & Hdown & Hup).
    pose proof (Z.div_mod (x * s) y ltac:(lia)) as Hdm'.
    pose proof (Z.mod_pos_bound (x * s) y Hy) as Hmod'.
    set (m := round_half_even (x * s) y) in *.
    set (Q := (x * s) / y) in *. set (R := (x * s) mod y) in *.
    destruct (Z.eqb_spec r 0) as [Hr | Hr].
    + assert (HQ : Q = k * s /\ R = 0).
      { assert (Hxs : x * s = (k * s) * y) by nia.
        unfold Q, R. rewrite Hxs, Z.div_mul, Z.mod_mul by lia. auto. }
      destruct HQ as [HQ HR]. assert (Hmq : m = k * s) by (rewrite Hdown; lia).
      rewrite Hmq. symmetry. apply Z.div_unique with (r := s - 1); lia.
    + assert (HQlo : k * s <= Q) by (apply Z.div_le_lower_bound; nia).
      assert (HQhi : Q < (k + 1) * s) by (apply Z.div_lt_upper_bound; nia).
      assert (Hmlo : k * s + 1 <= m).
      { destruct (Z.eq_dec Q (k * s)) as [HQe | HQe]; [| lia].
        assert (HR : R = r * s) by nia.
        rewrite Hup; [lia | nia | right; nia]. }
      assert (Hmhi : m <= (k + 1) * s) by lia.
      symmetry. apply Z.div_unique with (r := m + s - 1 - (k + 1) * s); lia.
Qed.

(** The batch count of the source is the exact one, for an array of fewer
    than [2 ^ 53] rows and a batch size that converts to a double. *)
Lemma float_ceil_div_exact (n b : Z) :
  0 <= n < 2 ^ 53 -> 0 < b < float_overflow_bound ->
  float_ceil_div n b = Ok (ceil_div n b).
Proof.
  intros [Hn0 Hn53] [Hb0 Hbhi]. unfold float_ceil_div.
  rewrite (float_of_int_small n Hn53). cbn [bind].
  destruct (Z.lt_ge_cases b (2 ^ 53)) as [Hb53 | Hb53].
  - rewrite (float_of_int_small b Hb53). cbn [bind].
    rewrite ceil_of_quotient_exact by lia. reflexivity.
  - destruct (float_of_int_large b Hb53 Hbhi) as (y & -> & Hy). cbn [bind].
    rewrite ceil_of_quotient_exact by lia.
    rewrite !ceil_div_small by lia. reflexivity.
Qed.

Lemma float_ceil_div_overflow (n b : Z) :
  float_overflow_bound <= b ->
  float_ceil_div n b = Raise (OverflowError "int too large to convert to float").
Proof.
  intros Hb. unfold float_ceil_div.
  destruct (Z.lt_ge_cases n float_overflow_bound) as [Hn | Hn].
  - destruct (float_of_int n) as [x | e] eqn:Hx; cbn [bind].
    + rewrite (float_of_int_overflow b Hb). reflexivity.
    + unfold float_of_int in Hx. destruct (n <? 2 ^ 53); [discriminate|].
      destruct (2 ^ 1024 <=? _); [congruence | discriminate].
  - rewrite (float_of_int_overflow n Hn). reflexivity.
Qed.

Lemma float_of_int_raises (n : Z) (e : exn) :
  float_of_int n = Raise e ->
  e = OverflowError "int too large to convert to float".
Proof.
  unfold float_of_int. destruct (n <? 2 ^ 53); [discriminate|].
  destruct (2 ^ 1024 <=? _); [| discriminate]. intros H. injection H as <-. reflexivity.
Qed.

Lemma float_overflow_bound_pos : 2 ^ 53 < float_overflow_bound.
Proof. reflexivity. Qed.

(** ** The loop over the batches *)

Lemma range_succ (j : nat) :
  range (Z.of_nat (S j)) = range (Z.of_nat j) ++ [Z.of_nat j].
Proof.
  unfold range. rewrite !Nat2Z.id, seq_S, map_app. reflexivity.
Qed.

Lemma firstn_slice {A} (X : list A) (a t : nat) :
  (a <= t)%nat ->
  firstn a X ++ firstn (t - a) (skipn a X) = firstn t X.
Proof.
  revert X t. induction a as [| a IH]; intros X t Hat.
  - rewrite Nat.sub_0_r. reflexivity.
  - destruct t as [| t]; [lia|].
    destruct X as [| x X]; [cbn [skipn firstn app]; rewrite firstn_nil; reflexivity|].
    cbn [firstn skipn app]. rewrite Nat.sub_succ. f_equal. apply IH. lia.
Qed.

Lemma skipn_prefix2 {A} (pre mid post : list A) :
  skipn (List.length pre + List.length mid) (pre ++ mid ++ post) = post.
Proof.
  induction pre as [| x pre IH]; simpl.
  - induction mid as [| y mid IHm]; simpl; auto.
  - exact IH.
Qed.


Section PredictFacts.
Context {F : Fitted}.

Lemma setslice_exact (pre mid post v : list Out) (a b : Z) :
  Z.to_nat a = List.length pre ->
  Z.to_nat b = (List.length pre + List.length mid)%nat ->
  List.length v = List.length mid ->
  setslice (pre ++ mid ++ post) a b v = Ok (pre ++ v ++ post).
Proof.
  intros Ha Hb Hv. unfold setslice.
  rewrite Ha, Hb, !length_app.
  replace (Nat.min (List.length pre) (List.length pre + (List.length mid + List.length post)))
    with (List.length pre) by lia.
  replace (Nat.max (List.length pre)
             (Nat.min (List.length pre + List.length mid)
                (List.length pre + (List.length mid + List.length post))))
    with (List.length pre + List.length mid)%nat by lia.
  replace (List.length pre + List.length mid - List.length pre)%nat
    with (List.length mid) by lia.
  rewrite Hv, Nat.eqb_refl.
  rewrite firstn_app, Nat.sub_diag, firstn_all, firstn_O, app_nil_r.
  rewrite skipn_prefix2. reflexivity.
Qed.

Lemma zeros_repeat (X : list Row) :
  exists z, zeros X = repeat z (List.length X).
Proof.
  unfold zeros. destruct (num_targets =? 1); eauto.
Qed.

(** An exception raised by the loop is numpy's, never the argument check's. *)
Lemma predict_batch_loop_not_Exception (X : list Row) (b : Z) (ks : list Z) :
  forall acc msg,
    acc <> Raise (Exception msg) ->
    fold_left (predict_batch X b) ks acc <> Raise (Exception msg).
Proof.
  induction ks as [| k ks IH]; intros acc msg Hacc; simpl; [exact Hacc|].
  apply IH. destruct acc as [y | e]; simpl; [| exact Hacc].
  unfold setslice.
  destruct (_ =? _)%nat; [discriminate|].
  destruct (predict_None _) as [| r [| r' v]]; discriminate.
Qed.


Lemma setslice_length (y y' v : list Out) (a b : Z) :
  setslice y a b v = Ok y' -> List.length y' = List.length y.
Proof.
  unfold setslice.
  set (a' := Nat.min (Z.to_nat a) (List.length y)).
  set (b' := Nat.max a' (Nat.min (Z.to_nat b) (List.length y))).
  assert (Ha : (a' <= List.length y)%nat) by (unfold a'; lia).
  assert (Hb : (a' <= b' <= List.length y)%nat) by (unfold b'; lia).
  destruct (Nat.eqb_spec (List.length v) (b' - a')) as [Hv | Hv].
  - intros H. injection H as <-.
    rewrite !length_app, length_firstn, length_skipn. lia.
  - destruct v as [| r [| r' v]]; try discriminate.
    intros H. injection H as <-.
    rewrite !length_app, length_firstn, length_skipn, repeat_length. lia.
Qed.

Lemma predict_loop_length (X : list Row) (b : Z) (ks : list Z) :
  forall y0 y,
    fold_left (predict_batch X b) ks (Ok y0) = Ok y ->
    List.length y = List.length y0.
Proof.
  induction ks as [| k ks IH]; intros y0 y H.
  - injection H as <-. reflexivity.
  - cbn [fold_left] in H. unfold predict_batch at 2 in H. cbn [bind] in H.
    destruct (setslice y0 _ _ _) as [y1 | e] eqn:Hs.
    + rewrite (IH _ _ H). exact (setslice_length _ _ _ _ _ Hs).
    + exfalso. clear -H. induction ks as [| k' ks IH']; [discriminate|].
      apply IH'. exact H.
Qed.

(** The rows of the first [j] turns, put together. *)
Lemma row_ranges_prefix (X : list Row) (b : Z) (j : nat) :
  0 < b ->
  (j = 0 \/ (j - 1) * Z.to_nat b <= List.length X)%nat ->
  List.concat (row_ranges X b (Z.of_nat j))
  = firstn (Nat.min (j * Z.to_nat b) (List.length X)) X.
Proof.
  intros Hb. unfold row_ranges. induction j as [| j IH]; intros Hj.
  - reflexivity.
  - rewrite range_succ, map_app, concat_app, IH by (destruct j; [left | right]; lia).
    assert (Hjn : (j * Z.to_nat b <= List.length X)%nat)
      by (destruct Hj as [Hj | Hj]; [discriminate | replace (S j - 1)%nat with j in Hj by lia; exact Hj]).
    clear IH Hj. cbn [map List.concat]. rewrite app_nil_r.
    set (n := List.length X) in *. set (B := Z.to_nat b) in *.
    replace (Nat.min (j * B) n) with (j * B)%nat by lia.
    unfold slice.
    replace (Z.to_nat (Z.of_nat j * b)) with (j * B)%nat
      by (unfold B; rewrite Z2Nat.inj_mul, Nat2Z.id by lia; reflexivity).
    replace (Z.to_nat (Z.min ((Z.of_nat j + 1) * b) (shape0 X)))
      with (Nat.min (S j * B) n).
    + apply firstn_slice. simpl. lia.
    + unfold B, shape0. fold n. rewrite Z2Nat.inj_min, Z2Nat.inj_mul, Nat2Z.id by lia.
      f_equal. f_equal. lia.
Qed.

(** Each range is the next [batch_size] rows, as far as there are any. *)
Lemma row_ranges_nth (X : list Row) (b count : Z) (k : nat) :
  0 < b ->
  (k < List.length (row_ranges X b count))%nat ->
  nth k (row_ranges X b count) []
  = firstn (Z.to_nat b) (skipn (k * Z.to_nat b) X).
Proof.
  intros Hb Hk. unfold row_ranges, range in *.
  rewrite !length_map, length_seq in Hk.
  rewrite map_map.
  rewrite (nth_indep _ [] (slice X (Z.of_nat 0 * b)
                             (Z.min ((Z.of_nat 0 + 1) * b) (shape0 X))))
    by (rewrite length_map, length_seq; exact Hk).
  rewrite (map_nth (fun i => slice X (Z.of_nat i * b)
                               (Z.min ((Z.of_nat i + 1) * b) (shape0 X)))).
  rewrite seq_nth by exact Hk. cbn [Nat.add].
  unfold slice, shape0.
  assert (Hfrom : Z.to_nat (Z.of_nat k * b) = (k * Z.to_nat b)%nat)
    by (rewrite Z2Nat.inj_mul, Nat2Z.id by lia; reflexivity).
  assert (Hto : Z.to_nat (Z.min ((Z.of_nat k + 1) * b) (Z.of_nat (List.length X)))
                = Nat.min (k * Z.to_nat b + Z.to_nat b) (List.length X)).
  { rewrite Z2Nat.inj_min, Nat2Z.id. f_equal.
    rewrite Z2Nat.inj_mul, Z2Nat.inj_add, Nat2Z.id by lia.
    change (Z.to_nat 1) with 1%nat. lia. }
  rewrite Hfrom, Hto.
  set (B := Z.to_nat b). set (a := (k * B)%nat). set (n := List.length X).
  destruct (Nat.le_gt_cases (a + B) n) as [Hle | Hgt].
  - f_equal. lia.
  - rewrite !firstn_all2; [reflexivity | |]; rewrite length_skipn; fold n; lia.
Qed.

Lemma exact_batch_count_bounds (X : list Row) (b : Z) :
  0 < b ->
  let j := Z.to_nat (exact_batch_count X b) in
  Z.of_nat j = exact_batch_count X b
  /\ ((j - 1) * Z.to_nat b <= List.length X)%nat
  /\ (List.length X <= j * Z.to_nat b)%nat.
Proof.
  intros Hb j. unfold j, exact_batch_count, ceil_div, shape0.
  set (n := Z.of_nat (List.length X)).
  assert (Hn : 0 <= n) by (unfold n; lia).
  pose proof (Z.div_mod (n + b - 1) b ltac:(lia)) as Hdm.
  pose proof (Z.mod_pos_bound (n + b - 1) b Hb) as Hmod.
  set (q := (n + b - 1) / b) in *.
  assert (Hq : 0 <= q) by (apply Z.div_pos; lia).
  split; [lia|].
  assert (Hnat : List.length X = Z.to_nat n) by (unfold n; lia).
  rewrite Hnat. split.
  - apply Nat2Z.inj_le. rewrite Nat2Z.inj_mul, Nat2Z.inj_sub, !Z2Nat.id by lia.
    simpl (Z.of_nat 1). nia.
  - apply Nat2Z.inj_le. rewrite Nat2Z.inj_mul, !Z2Nat.id by lia. nia.
Qed.

(** The count of the source is the exact one, for an array of fewer than
    [2 ^ 53] rows and a batch size that converts to a double. *)
Lemma batch_count_exact (X : list Row) (b : Z) :
  shape0 X < 2 ^ 53 -> 0 < b < float_overflow_bound ->
  batch_count X b = Ok (exact_batch_count X b).
Proof.
  intros Hn Hb. unfold batch_count, exact_batch_count.
  rewrite float_ceil_div_exact by (unfold shape0 in *; lia). reflexivity.
Qed.

Lemma batch_count_overflow (X : list Row) (b : Z) :
  float_overflow_bound <= b ->
  batch_count X b = Raise (OverflowError "int too large to convert to float").
Proof.
  intros Hb. unfold batch_count. rewrite float_ceil_div_overflow by exact Hb.
  reflexivity.
Qed.

Lemma batch_count_raises (X : list Row) (b : Z) (e : exn) :
  batch_count X b = Raise e ->
  e = OverflowError "int too large to convert to float".
Proof.
  unfold batch_count, float_ceil_div.
  destruct (float_of_int (shape0 X)) as [x | e1] eqn:Hx; cbn [bind].
  - destruct (float_of_int b) as [y | e2] eqn:Hy; cbn [bind]; [discriminate|].
    intros H. injection H as <-. exact (float_of_int_raises _ _ Hy).
  - intros H. injection H as <-. exact (float_of_int_raises _ _ Hx).
Qed.

Lemma row_ranges_cover (X : list Row) (b : Z) :
  0 < b -> List.concat (row_ranges X b (exact_batch_count X b)) = X.
Proof.
  intros Hb. destruct (exact_batch_count_bounds X b Hb) as (Hj & Hlo & Hhi).
  rewrite <- Hj, row_ranges_prefix by (auto).
  rewrite Nat.min_r by exact Hhi. apply firstn_all.
Qed.

(** The state of [y] after the first [j] turns, for a prediction that keeps
    the number of rows. *)
Lemma predict_loop_concat (X : list Row) (b : Z) (z : Out) (j : nat) :
  (forall X', List.length (super_predict X') = List.length X') ->
  0 < b ->
  (j = 0 \/ (j - 1) * Z.to_nat b <= List.length X)%nat ->
  fold_left (predict_batch X b) (range (Z.of_nat j))
            (Ok (repeat z (List.length X)))
  = Ok (List.concat (map predict_None (row_ranges X b (Z.of_nat j)))
        ++ repeat z (List.length X - Nat.min (j * Z.to_nat b) (List.length X))).
Proof.
  intros Hlen Hb.
  assert (HP : forall X', List.length (predict_None X') = List.length X')
    by (intros X'; unfold predict_None; rewrite length_map; apply Hlen).
  assert (Hc : forall l : list (list Row),
             List.length (List.concat (map predict_None l))
             = List.length (List.concat l)).
  { induction l as [| x l IHl]; simpl; [reflexivity|].
    rewrite !length_app, HP, IHl. reflexivity. }
  induction j as [| j IH]; intros Hj.
  - simpl. rewrite Nat.sub_0_r. reflexivity.
  - assert (Hj' : (j = 0 \/ (j - 1) * Z.to_nat b <= List.length X)%nat)
      by (destruct j; [left | right]; lia).
    assert (Hjn : (j * Z.to_nat b <= List.length X)%nat)
      by (destruct Hj as [Hj | Hj]; [discriminate | replace (S j - 1)%nat with j in Hj by lia; exact Hj]).
    rewrite range_succ, fold_left_app, IH by exact Hj'.
    cbn [fold_left predict_batch bind].
    unfold row_ranges at 2. rewrite range_succ, !map_app, concat_app.
    fold (row_ranges X b (Z.of_nat j)).
    cbn [map List.concat]. rewrite app_nil_r.
    set (done := List.concat (map predict_None (row_ranges X b (Z.of_nat j)))).
    assert (Hdone : List.length done = (j * Z.to_nat b)%nat).
    { unfold done. rewrite Hc, row_ranges_prefix by assumption.
      rewrite length_firstn. lia. }
    clear IH Hj Hj'.
    set (n := List.length X) in *. set (B := Z.to_nat b) in *.
    set (a := (j * B)%nat) in *. set (t := Nat.min (S j * B) n).
    assert (HB : (0 < B)%nat) by (unfold B; lia).
    assert (Hat : (a <= t)%nat) by (unfold t, a; simpl; lia).
    assert (Htn : (t <= n)%nat) by (unfold t; lia).
    replace (Nat.min a n) with a by lia.
    assert (Hfrom : Z.to_nat (Z.of_nat j * b) = a).
    { unfold a, B. rewrite Z2Nat.inj_mul, Nat2Z.id by lia. reflexivity. }
    assert (Hto : Z.to_nat (Z.min ((Z.of_nat j + 1) * b) (shape0 X)) = t).
    { unfold t, B, shape0. fold n. rewrite Z2Nat.inj_min, Z2Nat.inj_mul, Nat2Z.id by lia.
      f_equal. f_equal. lia. }
    replace (n - a)%nat with ((t - a) + (n - t))%nat by lia.
    rewrite repeat_app.
    rewrite (setslice_exact done (repeat z (t - a)) (repeat z (n - t))).
    + rewrite app_assoc. reflexivity.
    + rewrite Hfrom, Hdone. reflexivity.
    + rewrite Hto, Hdone, repeat_length. lia.
    + rewrite HP, repeat_length. unfold slice. rewrite Hfrom, Hto.
      rewrite length_firstn, length_skipn. fold n. lia.
Qed.

(** The loop with the exact count: the unbatched predictions of the row
    ranges, one after the other. *)
Lemma predict_loop_exact (X : list Row) (b : Z) :
  (forall X', List.length (super_predict X') = List.length X') ->
  0 < b ->
  fold_left (predict_batch X b) (range (exact_batch_count X b)) (Ok (zeros X))
  = Ok (List.concat (map predict_None (row_ranges X b (exact_batch_count X b)))).
Proof.
  intros Hlen Hb.
  destruct (exact_batch_count_bounds X b Hb) as (Hj & Hlo & Hhi).
  destruct (zeros_repeat X) as [z Hz]. rewrite Hz, <- Hj.
  rewrite (predict_loop_concat X b z _ Hlen Hb) by auto.
  rewrite Nat.min_r by exact Hhi. rewrite Nat.sub_diag. cbn [repeat].
  rewrite app_nil_r. reflexivity.
Qed.


End PredictFacts.

Section PredictTheorems.
Context {F : Fitted}.

(** C1, amended.  For a fitted pipeline whose prediction has one row for
    every input row, an [X] of fewer than [2 ^ 53] rows and a batch size [b]
    with [0 < b < 2 ^ 1024 - 2 ^ 970]: the loop visits the row ranges
    [ranges], the [k]-th being the next [b] rows from row [k * b] on;
    together, in order, they are [X]; and [predict(X, batch_size=b)] returns
    the predictions [predict(range, batch_size=None)] of the ranges, one
    after the other.  If moreover the prediction goes row by row (it maps a
    function over the rows), that is the array [predict(X,
    batch_size=None)] returns. *)
Theorem predict_batched_equals_unbatched (X : list Row) (b : Z) :
  (forall X', List.length (super_predict X') = List.length X') ->
  shape0 X < 2 ^ 53 ->
  0 < b < 2 ^ 1024 - 2 ^ 970 ->
  exists ranges,
    batches X b = Ok ranges
    /\ (forall k, (k < List.length ranges)%nat ->
                  nth k ranges [] = firstn (Z.to_nat b) (skipn (k * Z.to_nat b) X))
    /\ List.concat ranges = X
    /\ predict X (VInt b) = Ok (List.concat (map predict_None ranges))
    /\ ((exists f, forall X', super_predict X' = map f X') ->
        predict X (VInt b) = predict X VNone).
Proof.
  intros Hlen Hn Hb.
  pose proof (batch_count_exact X b Hn Hb) as Hcount.
  assert (Hpos : 0 < b) by lia.
  exists (row_ranges X b (exact_batch_count X b)).
  assert (Hpredict : predict X (VInt b)
                     = Ok (List.concat (map predict_None
                                            (row_ranges X b (exact_batch_count X b))))).
  { cbn [predict]. destruct (Z.leb_spec b 0) as [Hle | _]; [lia|].
    rewrite Hcount. cbn [bind]. apply predict_loop_exact; assumption. }
  split; [unfold batches; rewrite Hcount; reflexivity|].
  split; [intros k Hk; apply row_ranges_nth; assumption|].
  split; [apply row_ranges_cover; exact Hpos|].
  split; [exact Hpredict|].
  intros (f & Hrow). rewrite Hpredict. cbn [predict]. f_equal.
  assert (Hmap : forall X', predict_None X' = map (fun x => astype (f x)) X')
    by (intros X'; unfold predict_None; rewrite Hrow, map_map; reflexivity).
  rewrite (map_ext _ _ Hmap), <- concat_map, (row_ranges_cover X b Hpos).
  symmetry. apply Hmap.
Qed.

(** C5.  For every input [X] and every [batch_size] that is not [None],
    [predict] raises the exception "batch_size must be a positive integer"
    exactly when [batch_size] is not a positive value of type [int]; a
    positive integer never raises it. *)
Theorem predict_batch_size_check (X : list Row) (batch_size : value) :
  batch_size <> VNone ->
  (predict X batch_size = Raise (Exception "batch_size must be a positive integer")
   <-> ~ (exists b, batch_size = VInt b /\ 0 < b)).
Proof.
  intros Hnone. destruct batch_size as [| v | b | s | p]; cbn [predict].
  - congruence.
  - split; [intros _ (b & Hb & _); discriminate | reflexivity].
  - destruct (Z.leb_spec b 0) as [Hle | Hlt].
    + split; [intros _ (b' & Hb' & Hpos); injection Hb' as <-; lia | reflexivity].
    + split.
      * intros Hraise. exfalso.
        destruct (batch_count X b) as [count | e] eqn:Hcount; cbn [bind] in Hraise.
        -- revert Hraise. apply predict_batch_loop_not_Exception. discriminate.
        -- apply batch_count_raises in Hcount. subst e. discriminate.
      * intros Hno. exfalso. apply Hno. exists b. split; [reflexivity | exact Hlt].
  - split; [intros _ (b & Hb & _); discriminate | reflexivity].
  - split; [intros _ (b & Hb & _); discriminate | reflexivity].
Qed.


(** X2.  Whatever the pipeline predicts, a batched [predict] that returns
    gives as many rows as [X] has. *)
Theorem predict_batched_row_count (X : list Row) (b : Z) (y : list Out) :
  predict X (VInt b) = Ok y -> List.length y = List.length X.
Proof.
  cbn [predict]. destruct (b <=? 0); [discriminate|].
  destruct (batch_count X b) as [count | e]; cbn [bind]; [| discriminate].
  intros H. apply predict_loop_length in H. rewrite H.
  destruct (zeros_repeat X) as [z ->]. apply repeat_length.
Qed.

(** X3.  A batch size of [2 ^ 1024 - 2 ^ 970] or more is an int that does not
    convert to a double: [predict] raises the [OverflowError] of the
    division, whatever [X] is. *)
Theorem predict_batch_size_overflow (X : list Row) (b : Z) :
  2 ^ 1024 - 2 ^ 970 <= b ->
  predict X (VInt b) = Raise (OverflowError "int too large to convert to float").
Proof.
  intros Hb. cbn [predict].
  pose proof float_overflow_bound_pos as Hpos.
  assert (Hb' : float_overflow_bound <= b) by exact Hb.
  assert (H53 : 0 < 2 ^ 53) by reflexivity.
  destruct (Z.leb_spec b 0) as [Hle | _]; [lia|].
  rewrite (batch_count_overflow X b Hb'). reflexivity.
Qed.

(** X4.  An empty [X] still takes one turn of the loop: for a batch size [b]
    with [0 < b < 2 ^ 1024 - 2 ^ 970] the unbatched prediction of the empty
    array is asked for, and anything of more than one row it returns cannot
    be stored. *)
Theorem predict_batched_empty (b : Z) :
  0 < b < 2 ^ 1024 - 2 ^ 970 ->
  predict [] (VInt b)
  = match predict_None [] with
    | [] | [_] => Ok []
    | v => Raise (ValueError (broadcast_message (List.length v) 0))
    end.
Proof.
  intros Hb. cbn [predict].
  destruct (Z.leb_spec b 0) as [Hle | _]; [lia|].
  rewrite (batch_count_exact [] b) by (try exact Hb; reflexivity). cbn [bind].
  assert (Hcount : @exact_batch_count F [] b = 1).
  { unfold exact_batch_count, ceil_div, shape0. cbn [List.length Z.of_nat].
    rewrite Z.div_small by lia. reflexivity. }
  rewrite Hcount. change (range 1) with [0].
  assert (Hz : zeros [] = []) by (unfold zeros; destruct (num_targets =? 1); reflexivity).
  rewrite Hz. cbn [fold_left]. unfold predict_batch. cbn [bind].
  replace (slice [] (0 * b) (Z.min ((0 + 1) * b) (shape0 []))) with (@nil Row)
    by (unfold slice; rewrite skipn_nil, firstn_nil; reflexivity).
  unfold setslice. cbn [List.length]. rewrite !Nat.min_0_r.
  cbn [Nat.max Nat.sub firstn skipn app repeat].
  destruct (predict_None []) as [| r [| r' v]]; reflexivity.
Qed.

(** X5.  For an [X] that is not empty and has fewer than [2 ^ 53] rows, and a
    batch size [b] with [0 < b < 2 ^ 1024 - 2 ^ 970], no row range of the
    loop is empty, and there are [ceil(len(X) / b)] of them. *)
Theorem batches_nonempty (X : list Row) (b : Z) :
  0 < b < 2 ^ 1024 - 2 ^ 970 -> shape0 X < 2 ^ 53 -> X <> [] ->
  exists ranges,
    batches X b = Ok ranges
    /\ Forall (fun batch => batch <> []) ranges
    /\ Z.of_nat (List.length ranges) = (shape0 X + b - 1) / b.
Proof.
  intros Hbb Hn53 HX. assert (Hb : 0 < b) by lia.
  exists (row_ranges X b (exact_batch_count X b)).
  split; [unfold batches; rewrite (batch_count_exact X b Hn53 Hbb); reflexivity|].
  assert (Hn : (0 < List.length X)%nat) by (destruct X; [congruence | simpl; lia]).
  assert (Hceil : 1 <= ceil_div (shape0 X) b).
  { unfold ceil_div, shape0. apply Z.div_le_lower_bound; lia. }
  destruct (exact_batch_count_bounds X b Hb) as (Hj & Hlo & Hhi).
  split.
  - unfold row_ranges, range. rewrite map_map. apply Forall_forall.
    intros batch Hin. apply in_map_iff in Hin. destruct Hin as (i & <- & Hi).
    apply in_seq in Hi. intros Hnil.
    apply (f_equal (@List.length Row)) in Hnil. unfold slice in Hnil.
    rewrite length_firstn, length_skipn in Hnil. cbn [List.length] in Hnil.
    assert (Hfrom : Z.to_nat (Z.of_nat i * b) = (i * Z.to_nat b)%nat)
      by (rewrite Z2Nat.inj_mul, Nat2Z.id by lia; reflexivity).
    assert (Hto : Z.to_nat (Z.min ((Z.of_nat i + 1) * b) (shape0 X))
                  = Nat.min (i * Z.to_nat b + Z.to_nat b) (List.length X)).
    { unfold shape0. rewrite Z2Nat.inj_min, Nat2Z.id. f_equal.
      rewrite Z2Nat.inj_mul, Z2Nat.inj_add, Nat2Z.id by lia.
      change (Z.to_nat 1) with 1%nat. lia. }
    rewrite Hfrom, Hto in Hnil.
    assert (Hib : (i * Z.to_nat b < List.length X)%nat).
    { assert (i <= Z.to_nat (exact_batch_count X b) - 1)%nat by lia.
      assert (Hstrict : ((Z.to_nat (exact_batch_count X b) - 1) * Z.to_nat b
                         < List.length X)%nat).
      { apply Nat2Z.inj_lt. rewrite Nat2Z.inj_mul, Nat2Z.inj_sub by lia.
        rewrite Hj, Z2Nat.id by lia. unfold exact_batch_count.
        rewrite Z.max_r by lia. unfold ceil_div, shape0 in *.
        set (n := Z.of_nat (List.length X)) in *.
        pose proof (Z.mul_div_le (n + b - 1) b Hb). simpl (Z.of_nat 1). nia. }
      nia. }
    assert (0 < Z.to_nat b)%nat by lia. lia.
  - unfold row_ranges, range. rewrite !length_map, length_seq.
    unfold exact_batch_count. fold (ceil_div (shape0 X) b).
    rewrite Z.max_r by lia. lia.
Qed.

End PredictTheorems.


(* ================================================================== *)
(** * Properties of the search-space construction *)
(* ================================================================== *)

Lemma list_contains_In (l : list string) (k : string) :
  list_contains l k = true <-> In k l.
Proof.
  unfold list_contains. rewrite existsb_exists. split.
  - intros (x & Hx & Heq). apply String.eqb_eq in Heq. subst. exact Hx.
  - intros Hin. exists k. split; [exact Hin | apply String.eqb_refl].
Qed.

(** The two outcomes of the key check: every key names a step, or the first
    key that does not is reported. *)
Lemma check_keys_cases (what : string) (sel_keys keys : list string) :
  (Forall (fun key => In key keys) sel_keys /\ check_keys what sel_keys keys = Ok tt)
  \/ (exists key, In key sel_keys /\ ~ In key keys
        /\ check_keys what sel_keys keys
           = Raise (ValueError (invalid_key_message what key keys))).
Proof.
  induction sel_keys as [| key rest IH]; simpl.
  - left. split; [constructor | reflexivity].
  - destruct (list_contains keys key) eqn:Hc; simpl.
    + apply list_contains_In in Hc.
      destruct IH as [[Hall Hok] | (k & Hin & Hnot & Hraise)].
      * left. split; [constructor; assumption | exact Hok].
      * right. exists k. auto.
    + right. exists key. split; [left; reflexivity|]. split; [| reflexivity].
      intros Hin. apply list_contains_In in Hin. congruence.
Qed.

Lemma dict_get_set_eq {V} (d : dict V) (k : string) (v : V) :
  dict_get (dict_set d k v) k = Some v.
Proof.
  induction d as [| [k' v'] d IH]; simpl.
  - rewrite String.eqb_refl. reflexivity.
  - destruct (String.eqb k k') eqn:Hk; simpl; rewrite Hk; [reflexivity | exact IH].
Qed.

Lemma dict_get_set_neq {V} (d : dict V) (k k0 : string) (v : V) :
  k0 <> k -> dict_get (dict_set d k v) k0 = dict_get d k0.
Proof.
  intros Hne. induction d as [| [k' v'] d IH]; simpl.
  - destruct (String.eqb_spec k0 k); [congruence | reflexivity].
  - destruct (String.eqb_spec k k'); simpl.
    + subst k'. destruct (String.eqb_spec k0 k); [congruence | reflexivity].
    + destruct (String.eqb_spec k0 k'); [reflexivity | exact IH].
Qed.

(** Writing to a key that is absent appends an entry, so the mapping changes. *)
Lemma dict_set_absent_length {V} (d : dict V) (k : string) (v : V) :
  dict_get d k = None -> List.length (dict_set d k v) = S (List.length d).
Proof.
  induction d as [| [k' v'] d IH]; simpl; intros Hget; [reflexivity|].
  destruct (String.eqb k k'); [discriminate|]. simpl. rewrite IH by exact Hget.
  reflexivity.
Qed.

Lemma dict_contains_get {V} (d : dict V) (k : string) :
  dict_contains d k = false <-> dict_get d k = None.
Proof.
  unfold dict_contains. destruct (dict_get d k); split; congruence.
Qed.

Lemma set_default_properties_get (d : dict value) (k : string) :
  dict_get (set_default_properties d) k =
    if String.eqb k "sparse" then Some (or_default d "sparse" (VBool false))
    else if String.eqb k "signed" then Some (or_default d "signed" (VBool false))
    else dict_get d k.
Proof.
  unfold set_default_properties, or_default, dict_contains.
  destruct (String.eqb_spec k "sparse") as [-> | Hsp].
  - destruct (dict_get d "sparse") as [v |] eqn:Hs; simpl.
    + destruct (dict_get d "signed"); simpl; [exact Hs|].
      rewrite dict_get_set_neq by discriminate. exact Hs.
    + rewrite dict_get_set_neq by discriminate.
      destruct (dict_get d "signed"); simpl.
      * apply dict_get_set_eq.
      * rewrite dict_get_set_neq by discriminate. apply dict_get_set_eq.
  - destruct (String.eqb_spec k "signed") as [-> | Hsg].
    + destruct (dict_get d "sparse") as [v |] eqn:Hs; simpl.
      * destruct (dict_get d "signed") eqn:Hg; simpl; [exact Hg | apply dict_get_set_eq].
      * rewrite dict_get_set_neq by discriminate.
        destruct (dict_get d "signed") eqn:Hg; simpl.
        -- rewrite dict_get_set_neq by discriminate. exact Hg.
        -- apply dict_get_set_eq.
    + destruct (dict_get d "sparse") as [v |] eqn:Hs; simpl.
      * destruct (dict_get d "signed"); simpl; [reflexivity|].
        apply dict_get_set_neq. exact Hsg.
      * rewrite dict_get_set_neq by discriminate.
        destruct (dict_get d "signed"); simpl.
        -- apply dict_get_set_neq. exact Hsp.
        -- rewrite !dict_get_set_neq by assumption. reflexivity.
Qed.

Lemma set_default_properties_length (d : dict value) :
  (List.length d <= List.length (set_default_properties d))%nat
  /\ (set_default_properties d = d
      <-> dict_contains d "sparse" = true /\ dict_contains d "signed" = true).
Proof.
  unfold set_default_properties.
  destruct (dict_contains d "sparse") eqn:Hs; simpl.
  - destruct (dict_contains d "signed") eqn:Hg; simpl.
    + split; [lia | tauto].
    + apply dict_contains_get in Hg.
      pose proof (dict_set_absent_length d "signed" (VBool false) Hg) as Hlen.
      split; [lia|]. split; [| intros [_ H]; discriminate].
      intros Heq. rewrite Heq in Hlen. lia.
  - apply dict_contains_get in Hs.
    pose proof (dict_set_absent_length d "sparse" (VBool false) Hs) as Hlen.
    set (d1 := dict_set d "sparse" (VBool false)) in *.
    destruct (dict_contains d1 "signed") eqn:Hg; simpl.
    + split; [lia|]. split; [| intros [H _]; discriminate].
      intros Heq. rewrite Heq in Hlen. lia.
    + apply dict_contains_get in Hg.
      pose proof (dict_set_absent_length d1 "signed" (VBool false) Hg) as Hlen1.
      split; [lia|]. split; [| intros [H _]; discriminate].
      intros Heq. rewrite Heq in Hlen1. lia.
Qed.

(** ** The matrix *)

Lemma sum_zero_of_no_nonzero (l : list Z) :
  filter (fun z => negb (z =? 0)) l = [] -> fold_right Z.add 0 l = 0.
Proof.
  induction l as [| z l IH]; simpl; [reflexivity|].
  destruct (Z.eqb_spec z 0) as [-> | Hz]; simpl; [exact IH | discriminate].
Qed.

Lemma true_count_zero_sum (m : ndarray) : true_count m = 0 -> np_sum m = 0.
Proof.
  unfold true_count, np_sum. intros H. apply sum_zero_of_no_nonzero.
  destruct (filter _ (data m)); [reflexivity | discriminate H].
Qed.

Lemma true_count_bounds (m : ndarray) : 0 <= true_count m <= np_size m.
Proof.
  unfold true_count, np_size. rewrite <- (shape_data m).
  pose proof (filter_length_le (fun z => negb (z =? 0)) (data m)). lia.
Qed.

Lemma binary_sum_true_count (m : ndarray) : binary m -> np_sum m = true_count m.
Proof.
  unfold binary, np_sum, true_count. induction (data m) as [| z l IH]; intros H.
  - reflexivity.
  - inversion H as [| ? ? Hz Hl]; subst. specialize (IH Hl).
    cbn [fold_right filter]. rewrite IH.
    destruct Hz as [-> | ->]; cbn [Z.eqb negb List.length]; lia.
Qed.

Section SearchSpaceTheorems.
Context {CS : ConfigSpace} {U : SearchSpaceUtil}.

(** The call, once both selectors passed the key check. *)
Lemma search_space_valid_keys (cs : ConfigurationSpace) (dataset_properties : dict value)
    (exclude include : option selector) (pipeline : pipeline_steps) :
  Forall (fun key => In key (map fst pipeline)) (dict_keys (or_empty include)) ->
  Forall (fun key => In key (map fst pipeline)) (dict_keys (or_empty exclude)) ->
  _get_hyperparameter_search_space cs dataset_properties exclude include pipeline
  = (set_default_properties dataset_properties,
     build_search_space cs (set_default_properties dataset_properties)
       (or_empty exclude) (or_empty include) pipeline).
Proof.
  intros Hinc Hexc. unfold _get_hyperparameter_search_space.
  destruct (check_keys_cases "include" (dict_keys (or_empty include)) (map fst pipeline))
    as [[_ ->] | (k & Hin & Hnot & _)].
  - destruct (check_keys_cases "exclude" (dict_keys (or_empty exclude)) (map fst pipeline))
      as [[_ ->] | (k & Hin & Hnot & _)]; [reflexivity|].
    rewrite Forall_forall in Hexc. elim Hnot. auto.
  - rewrite Forall_forall in Hinc. elim Hnot. auto.
Qed.

(** C6.  If some key of [include] or of [exclude] is not the name of a step
    of the pipeline, the call raises the [ValueError] "Invalid key in
    include: <key>; should be one of <step names>" (or the same with
    "exclude") for such a key, and the dataset properties are not touched;
    if all keys are step names the check passes and the construction goes
    on. *)
Theorem invalid_selector_key_rejected (cs : ConfigurationSpace)
    (dataset_properties : dict value) (exclude include : option selector)
    (pipeline : pipeline_steps) :
  let keys := map fst pipeline in
  let included := dict_keys (or_empty include) in
  let excluded := dict_keys (or_empty exclude) in
  let call := _get_hyperparameter_search_space cs dataset_properties
                exclude include pipeline in
  ((exists key, In key (included ++ excluded) /\ ~ In key keys) ->
   exists what key,
     (what = "include" /\ In key included \/ what = "exclude" /\ In key excluded)
     /\ ~ In key keys
     /\ call = (dataset_properties,
                Raise (ValueError
                         ("Invalid key in " ++ what ++ ": " ++ key
                            ++ "; should be one of " ++ str_list keys))))
  /\ ((forall key, In key (included ++ excluded) -> In key keys) ->
      call = (set_default_properties dataset_properties,
              build_search_space cs (set_default_properties dataset_properties)
                (or_empty exclude) (or_empty include) pipeline)).
Proof.
  intros keys included excluded call. split.
  - intros (bad & Hbad & Hnot). subst call.
    unfold _get_hyperparameter_search_space. fold keys included excluded.
    destruct (check_keys_cases "include" included keys)
      as [[Hinc ->] | (k & Hin & Hk & ->)].
    + destruct (check_keys_cases "exclude" excluded keys)
        as [[Hexc ->] | (k & Hin & Hk & ->)].
      * exfalso. apply Hnot. rewrite Forall_forall in Hinc, Hexc.
        apply in_app_or in Hbad. destruct Hbad; auto.
      * exists "exclude", k. unfold invalid_key_message. auto.
    + exists "include", k. unfold invalid_key_message. auto.
  - intros Hall. apply search_space_valid_keys; apply Forall_forall; intros k Hk;
      apply Hall, in_or_app; auto.
Qed.

(** C2.  Once the include and exclude keys are accepted and the match array
    [matches] is computed: if it has no true entry the construction raises
    the [AssertionError] "No valid pipeline found."; if the construction
    returns a space then [0 < true_count <= size] and [sum <= size]; the
    count of true entries never exceeds the size, and for a boolean
    indicator the sum is that count. *)
Theorem compatibility_matrix_checked (cs : ConfigurationSpace)
    (dataset_properties : dict value) (exclude include : option selector)
    (pipeline : pipeline_steps) (matches : ndarray) :
  let call := _get_hyperparameter_search_space cs dataset_properties
                exclude include pipeline in
  Forall (fun key => In key (map fst pipeline)) (dict_keys (or_empty include)) ->
  Forall (fun key => In key (map fst pipeline)) (dict_keys (or_empty exclude)) ->
  get_match_array pipeline (set_default_properties dataset_properties)
    (or_empty include) (or_empty exclude) = Ok matches ->
  (true_count matches = 0 ->
   snd call = Raise (AssertionError "No valid pipeline found."))
  /\ (forall cs', snd call = Ok cs' ->
      0 < true_count matches <= np_size matches
      /\ np_sum matches <= np_size matches)
  /\ true_count matches <= np_size matches
  /\ (binary matches -> np_sum matches = true_count matches).
Proof.
  intros call Hinc Hexc Hm. subst call.
  rewrite search_space_valid_keys by assumption. cbn [snd].
  unfold build_search_space. rewrite Hm. cbn [bind].
  pose proof (true_count_bounds matches) as Hb.
  split; [| split; [| split]].
  - intros H0. rewrite (true_count_zero_sum _ H0). reflexivity.
  - intros cs' Hok.
    destruct (Z.eqb_spec (np_sum matches) 0) as [| Hne]; [discriminate|].
    destruct (Z.leb_spec (np_sum matches) (np_size matches)) as [Hle |];
      [| discriminate].
    split; [| exact Hle]. split; [| apply Hb].
    destruct (Z.eq_dec (true_count matches) 0) as [H0 |]; [| lia].
    apply true_count_zero_sum in H0. contradiction.
  - apply Hb.
  - apply binary_sum_true_count.
Qed.

(** C8, amended.  Once the include and exclude keys are accepted, the call
    leaves the caller's mapping with [sparse] and [signed] present: each
    keeps the value it had, or is [False] if it was absent; every other key
    is as it was; the mapping is unchanged only if it already had both keys;
    and the search space is built from the mapping so completed. *)
Theorem dataset_properties_defaults_written (cs : ConfigurationSpace)
    (dataset_properties : dict value) (exclude include : option selector)
    (pipeline : pipeline_steps) :
  let call := _get_hyperparameter_search_space cs dataset_properties
                exclude include pipeline in
  Forall (fun key => In key (map fst pipeline)) (dict_keys (or_empty include)) ->
  Forall (fun key => In key (map fst pipeline)) (dict_keys (or_empty exclude)) ->
  dict_get (fst call) "sparse" = Some (or_default dataset_properties "sparse" (VBool false))
  /\ dict_get (fst call) "signed" = Some (or_default dataset_properties "signed" (VBool false))
  /\ (forall k, k <> "sparse" -> k <> "signed" ->
        dict_get (fst call) k = dict_get dataset_properties k)
  /\ (fst call = dataset_properties <->
        dict_contains dataset_properties "sparse" = true
        /\ dict_contains dataset_properties "signed" = true)
  /\ snd call = build_search_space cs (fst call) (or_empty exclude) (or_empty include)
                  pipeline.
Proof.
  intros call Hinc Hexc. subst call.
  rewrite search_space_valid_keys by assumption. cbn [fst snd].
  split; [| split; [| split; [| split]]].
  - rewrite set_default_properties_get. reflexivity.
  - rewrite set_default_properties_get. reflexivity.
  - intros k Hsp Hsg. rewrite set_default_properties_get.
    destruct (String.eqb_spec k "sparse"); [contradiction|].
    destruct (String.eqb_spec k "signed"); [contradiction | reflexivity].
  - apply set_default_properties_length.
  - reflexivity.
Qed.

End SearchSpaceTheorems.


(* ================================================================== *)
(** * Properties of the hyperparameter routing *)
(* ================================================================== *)

Lemma prefix_app (p r : string) : String.prefix p (p ++ r) = true.
Proof.
  induction p as [| c p IH]; simpl.
  - destruct r; reflexivity.
  - destruct (ascii_dec c c); [exact IH | contradiction].
Qed.

Lemma prefix_skip (p s : string) :
  String.prefix p s = true -> s = (p ++ skip (String.length p) s)%string.
Proof.
  revert s. induction p as [| c p IH]; intros s H; simpl.
  - reflexivity.
  - destruct s as [| c' s]; simpl in H; [discriminate|].
    destruct (ascii_dec c c') as [<- |]; [| discriminate].
    f_equal. apply IH. exact H.
Qed.

Lemma append_assoc (a b c : string) : ((a ++ b) ++ c = a ++ b ++ c)%string.
Proof. induction a as [| x a IH]; simpl; [reflexivity | rewrite IH; reflexivity]. Qed.

Lemma skip_app (p r : string) : skip (String.length p) (p ++ r) = r.
Proof. induction p; simpl; auto. Qed.

(** On a string that starts with [p], [replace(p, '', 1)] removes that
    first [p] and nothing else. *)
Lemma replace_first_prefix (p s : string) :
  startswith s p = true -> replace_first s p EmptyString = skip (String.length p) s.
Proof.
  unfold startswith. intros H. destruct s; cbn [replace_first]; rewrite H; reflexivity.
Qed.

Lemma replace_first_app (p r : string) : replace_first (p ++ r) p EmptyString = r.
Proof.
  rewrite replace_first_prefix by apply prefix_app. apply skip_app.
Qed.

Lemma dict_get_keys {V} (d : dict V) (k : string) :
  dict_get d k = None <-> list_contains (dict_keys d) k = false.
Proof.
  unfold list_contains, dict_keys.
  induction d as [| [k' v] d IH]; simpl; [tauto|].
  destruct (String.eqb k k'); simpl; [split; discriminate | exact IH].
Qed.

Section RouterFacts.
Context {CS : ConfigSpace}.

Lemma config_getitem_get (c : Configuration ConfigurationSpace) (k : string) :
  list_contains (config_iter c) k = true ->
  dict_get (values c) k = Some (config_getitem c k).
Proof.
  unfold config_getitem, config_iter. intros Hin.
  destruct (dict_get (values c) k) eqn:Hget; [reflexivity|].
  apply dict_get_keys in Hget. congruence.
Qed.

(** The dict a node receives, read key by key, after the inner loop went
    through the parameters [params] starting from the dict [d]. *)
Lemma sub_config_loop (c : Configuration ConfigurationSpace)
    (pre new_name : string) (params : list string) :
  forall d,
    dict_get
      (fold_left
         (fun d param =>
            if startswith param pre
            then dict_set d (replace_first param pre EmptyString) (config_getitem c param)
            else d)
         params d) new_name
    = if list_contains params (pre ++ new_name)
      then Some (config_getitem c (pre ++ new_name))
      else dict_get d new_name.
Proof.
  induction params as [| param params IH]; intros d; [reflexivity|].
  cbn [fold_left]. rewrite IH. unfold list_contains at 2. cbn [existsb].
  fold (list_contains params (pre ++ new_name)).
  destruct (list_contains params (pre ++ new_name)); [rewrite orb_true_r; reflexivity|].
  rewrite orb_false_r.
  destruct (startswith param pre) eqn:Hsw.
  - pose proof (prefix_skip pre param Hsw) as Hparam.
    rewrite (replace_first_prefix _ _ Hsw).
    set (r := skip (String.length pre) param) in *.
    destruct (String.eqb_spec (pre ++ new_name) param) as [Heq | Hne].
    + rewrite Hparam in Heq. assert (new_name = r) as ->.
      { apply (f_equal (skip (String.length pre))) in Heq.
        rewrite !skip_app in Heq. exact Heq. }
      rewrite dict_get_set_eq. rewrite Hparam at 1. reflexivity.
    + apply dict_get_set_neq. intros ->. apply Hne. symmetry. exact Hparam.
  - destruct (String.eqb_spec (pre ++ new_name) param) as [Heq | Hne]; [| reflexivity].
    subst param. unfold startswith in Hsw. rewrite prefix_app in Hsw. discriminate.
Qed.

(** The sub-configuration values of a step are exactly the values of the
    flat configuration under the step's prefix, with the prefix removed. *)
Lemma sub_config_dict_get (c : Configuration ConfigurationSpace)
    (node_name new_name : string) :
  dict_get (sub_config_dict node_name c) new_name
  = dict_get (values c) (node_name ++ ":" ++ new_name).
Proof.
  unfold sub_config_dict. rewrite sub_config_loop.
  rewrite <- append_assoc.
  destruct (list_contains (config_iter c) ((node_name ++ ":") ++ new_name)) eqn:Hin.
  - symmetry. apply config_getitem_get. exact Hin.
  - symmetry. apply dict_get_keys. exact Hin.
Qed.

Context {RS : RandomStates} {P : PipelineClass}.

Lemma set_node_routed (dp : dict value) (c : Configuration ConfigurationSpace)
    (node_name : string) (node node' : Node) :
  set_node dp c node_name node = Ok node' ->
  routed dp c (node_name, node) (node_name, node').
Proof.
  unfold set_node, routed. cbn [fst snd]. intros H.
  destruct (node_search_space node dp None) as [sub_space |] eqn:Hs; [| discriminate].
  cbn [bind] in H.
  destruct (new_Configuration sub_space _) as [sub |] eqn:Hc; [| discriminate].
  cbn [bind] in H.
  destruct (is_choice_or_component node); [| discriminate].
  injection H as <-. split; [reflexivity|]. split; [reflexivity|].
  exists sub_space, sub. auto.
Qed.

Lemma set_nodes_routed (dp : dict value) (c : Configuration ConfigurationSpace)
    (nodes nodes' : pipeline_steps) :
  set_nodes dp c nodes = Ok nodes' ->
  Forall2 (routed dp c) nodes nodes'.
Proof.
  revert nodes'. induction nodes as [| [node_name node] rest IH]; intros nodes' H.
  - injection H as <-. constructor.
  - cbn [set_nodes] in H.
    destruct (set_node dp c node_name node) as [node' |] eqn:Hn; [| discriminate].
    cbn [bind] in H.
    destruct (set_nodes dp c rest) as [rest' |]; [| discriminate].
    injection H as <-. constructor; [apply set_node_routed; exact Hn | apply IH; reflexivity].
Qed.

(** Applying to a node what was just applied to it changes nothing. *)
Lemma set_node_again (dp : dict value) (c : Configuration ConfigurationSpace)
    (node_name : string) (node node' : Node) :
  set_node dp c node_name node = Ok node' ->
  set_node dp c node_name node' = Ok node'.
Proof.
  intros H. destruct (set_node_routed _ _ _ _ _ H) as (_ & Hk & s & sub & Hs & Hc & Hn).
  cbn [fst snd] in *. subst node'.
  unfold set_node, is_choice_or_component, node_set_hyperparameters in *.
  cbn [node_search_space node_class_of].
  rewrite Hs. cbn [bind]. rewrite Hc. cbn [bind]. rewrite Hk. reflexivity.
Qed.

Lemma set_nodes_again (dp : dict value) (c : Configuration ConfigurationSpace)
    (nodes nodes' : pipeline_steps) :
  set_nodes dp c nodes = Ok nodes' ->
  set_nodes dp c nodes' = Ok nodes'.
Proof.
  revert nodes'. induction nodes as [| [node_name node] rest IH]; intros nodes' H.
  - injection H as <-. reflexivity.
  - cbn [set_nodes] in H.
    destruct (set_node dp c node_name node) as [node' |] eqn:Hn; [| discriminate].
    cbn [bind] in H.
    destruct (set_nodes dp c rest) as [rest' |] eqn:Hr; [| discriminate].
    injection H as <-. cbn [set_nodes].
    rewrite (set_node_again _ _ _ _ _ Hn). cbn [bind].
    rewrite (IH _ eq_refl). reflexivity.
Qed.

(** C4.  When [set_hyperparameters(configuration)] returns, every step has
    been [routed]: its sub-space was built from the pipeline's current
    dataset properties, a [Configuration] over that sub-space was made from
    [sub_config_dict], and the node took it through its own
    [set_hyperparameters]; [sub_config_dict] holds, under each name [n],
    exactly the value the flat configuration has under ["<step>:" ++ n], the
    prefix being removed once. *)
Theorem set_hyperparameters_routes_by_prefix (self self' : BasePipeline)
    (c : Configuration ConfigurationSpace) :
  set_hyperparameters self c = Ok self' ->
  Forall2 (routed (dataset_properties_ self) c) (steps self) (steps self')
  /\ (forall node_name new_name,
        dict_get (sub_config_dict node_name c) new_name
        = dict_get (values c) (node_name ++ ":" ++ new_name))
  /\ configuration self' = Some c.
Proof.
  unfold set_hyperparameters. intros H.
  destruct (set_nodes (dataset_properties_ self) c (steps self)) as [steps' |] eqn:Hs;
    [| discriminate].
  injection H as <-. cbn [steps configuration].
  split; [apply set_nodes_routed; exact Hs|].
  split; [intros; apply sub_config_dict_get | reflexivity].
Qed.

(** C7.  If [set_hyperparameters(c)] returns, calling it again with the same
    [c] returns too and leaves the object (steps with the sub-configuration
    each node holds, stored configuration, dataset properties) as the first
    call left it. *)
Theorem set_hyperparameters_idempotent (self self' : BasePipeline)
    (c : Configuration ConfigurationSpace) :
  set_hyperparameters self c = Ok self' ->
  set_hyperparameters self' c = Ok self'.
Proof.
  unfold set_hyperparameters. intros H.
  destruct (set_nodes (dataset_properties_ self) c (steps self)) as [steps' |] eqn:Hs;
    [| discriminate].
  injection H as <-. cbn [steps dataset_properties_ configuration_ random_state].
  rewrite (set_nodes_again _ _ _ _ Hs). reflexivity.
Qed.

End RouterFacts.


(* ================================================================== *)
(** * Properties of the constructor *)
(* ================================================================== *)

Section InitTheorems.
Context {CS : ConfigSpace} {RS : RandomStates} {P : PipelineClass}.

(** The seed the constructor passes to [check_random_state]. *)
Lemma init_random_state (config : config_arg ConfigurationSpace)
    (pipeline : option pipeline_steps) (dataset_properties : option (dict value))
    (include exclude : option selector)
    (seed : option (value + RandomState)) (self : BasePipeline) :
  __init__ config pipeline dataset_properties include exclude seed = Ok self ->
  exists rs,
    check_random_state (match seed with None => inl (VInt 1) | Some s => s end) = Ok rs
    /\ random_state self = Some rs.
Proof.
  unfold __init__. intros H.
  destruct (match pipeline with None => _ | Some _ => _ end) as [steps |];
    [| discriminate]. cbn [bind] in H.
  destruct (snd _) as [cs |]; [| discriminate]. cbn [bind] in H.
  destruct (match config with ConfigNone => _ | _ => _ end) as [c |];
    [| discriminate]. cbn [bind] in H.
  destruct (set_hyperparameters _ c) as [self0 |]; [| discriminate]. cbn [bind] in H.
  destruct seed as [s |].
  - destruct (check_random_state s) as [rs |] eqn:Hrs; [| discriminate].
    injection H as <-. exists rs. auto.
  - destruct (check_random_state (inl (VInt 1))) as [rs |] eqn:Hrs; [| discriminate].
    injection H as <-. exists rs. auto.
Qed.

(** C10.  A pipeline constructed with [random_state=None] holds the
    generator [check_random_state(1)]; two pipelines constructed so hold the
    same random state; with a seed given, the pipeline holds
    [check_random_state(seed)]. *)
Theorem default_random_state_is_seed_1 (config config' : config_arg ConfigurationSpace)
    (pipeline pipeline' : option pipeline_steps)
    (dataset_properties dataset_properties' : option (dict value))
    (include include' exclude exclude' : option selector) :
  (forall self,
     __init__ config pipeline dataset_properties include exclude None = Ok self ->
     exists rs, check_random_state (inl (VInt 1)) = Ok rs
                /\ random_state self = Some rs)
  /\ (forall self self',
        __init__ config pipeline dataset_properties include exclude None = Ok self ->
        __init__ config' pipeline' dataset_properties' include' exclude' None = Ok self' ->
        random_state self = random_state self')
  /\ (forall seed self,
        __init__ config pipeline dataset_properties include exclude (Some seed) = Ok self ->
        exists rs, check_random_state seed = Ok rs /\ random_state self = Some rs).
Proof.
  split; [| split].
  - intros self H. exact (init_random_state _ _ _ _ _ None _ H).
  - intros self self' H H'.
    destruct (init_random_state _ _ _ _ _ None _ H) as (rs & Hc & ->).
    destruct (init_random_state _ _ _ _ _ None _ H') as (rs' & Hc' & ->).
    congruence.
  - intros seed self H. exact (init_random_state _ _ _ _ _ (Some seed) _ H).
Qed.

(** C3.  For a [Configuration] passed to the constructor, once the steps
    and the fresh space [cs] are there: if [cs != config.configuration_space]
    the constructor raises the [ValueError] "Configuration passed does not
    come from the same configuration space. Differences are: " followed by
    the lines of the unified diff of [str(cs)] and
    [str(config.configuration_space)]; otherwise it goes on to [set_hyperparameters]
    with that very configuration, and a constructor that returns has stored
    it and routed it to every step. *)
Theorem configuration_of_other_space_rejected
    (config : Configuration ConfigurationSpace)
    (pipeline : option pipeline_steps) (dataset_properties : option (dict value))
    (include exclude : option selector)
    (seed : option (value + RandomState))
    (nodes : pipeline_steps) (cs : ConfigurationSpace) :
  let built := get_hyperparameter_search_space nodes dataset_properties
                 include exclude in
  let call := __init__ (ConfigObject config) pipeline dataset_properties
                include exclude seed in
  match pipeline with None => _get_pipeline | Some p => Ok p end = Ok nodes ->
  snd built = Ok cs ->
  (space_ne cs (configuration_space config) = true ->
   call = Raise (ValueError
                   ("Configuration passed does not come from the same configuration space. Differences are: "
                      ++ join nl (unified_diff
                                    (splitlines (space_str cs))
                                    (splitlines (space_str (configuration_space config)))))))
  /\ (space_ne cs (configuration_space config) = false ->
      call = (self <- set_hyperparameters
                        (before_set_hyperparameters nodes
                           (stored_dataset_properties dataset_properties (fst built))
                           config)
                        config ;;
              rs <- check_random_state
                      (match seed with None => inl (VInt 1) | Some s => s end) ;;
              Ok (set_random_state self rs))
      /\ forall self, call = Ok self ->
           configuration_ self = config
           /\ configuration self = Some config
           /\ Forall2 (routed (dataset_properties_ self) config)
                nodes (steps self)).
Proof.
  intros built call Hnodes Hcs.
  assert (Hcall : call = (c <- check_config cs config ;;
                          self <- set_hyperparameters
                                    (before_set_hyperparameters nodes
                                       (stored_dataset_properties dataset_properties
                                          (fst built)) c) c ;;
                          rs <- check_random_state
                                  (match seed with None => inl (VInt 1) | Some s => s end) ;;
                          Ok (set_random_state self rs))).
  { subst call. unfold __init__. rewrite Hnodes. cbn [bind].
    fold built. rewrite Hcs. cbn [bind].
    destruct (check_config cs config); cbn [bind]; [| reflexivity].
    destruct (set_hyperparameters _ _); cbn [bind]; [| reflexivity].
    destruct seed; reflexivity. }
  unfold check_config in Hcall. split; intros Hne; rewrite Hne in Hcall; cbn [bind] in Hcall.
  - exact Hcall.
  - split; [exact Hcall|]. intros self Hok. rewrite Hcall in Hok.
    destruct (set_hyperparameters _ config) as [self0 |] eqn:Hset; [| discriminate].
    cbn [bind] in Hok.
    destruct (check_random_state _) as [rs |]; [| discriminate].
    injection Hok as <-.
    unfold set_hyperparameters in Hset.
    destruct (set_nodes _ _ _) as [steps' |] eqn:Hs; [| discriminate].
    injection Hset as <-. apply set_nodes_routed in Hs. cbn in *. auto.
Qed.

End InitTheorems.


(* ================================================================== *)
(** * The textual representation *)
(* ================================================================== *)

(** C9.  At a pipeline whose dataset properties are not empty, [__repr__]
    shows the dict of values in its own order (here [b] before [a]) and not
    [configuration_string]; with no dataset properties the same
    configuration is shown sorted by name. *)
Theorem repr_with_dataset_properties_unsorted :
  @__repr__ Sample.spaces Sample.generators Sample.classification Sample.shown
  = ("SimpleClassificationPipeline({'b': 1, 'a': 2}," ++ nl
       ++ "dataset_properties={" ++ nl ++ "  'sparse': False})")%string
  /\ @__repr__ Sample.spaces Sample.generators Sample.classification Sample.shown_bare
     = ("SimpleClassificationPipeline(config={" ++ nl ++ "  'a': 2," ++ nl
          ++ "  'b': 1})")%string.
Proof. split; reflexivity. Qed.

(* ================================================================== *)
(** * The theorems at the sample pipeline *)
(* ================================================================== *)

(** C1, as claimed: a pipeline that predicts every row as the number of rows
    it was given predicts [2, 2, 1] in batches of two and [3, 3, 3] at
    once. *)
Lemma predict_batched_differs_for_counting :
  @predict Sample.counting [1; 2; 3] (VInt 2) = Ok [2; 2; 1]
  /\ @predict Sample.counting [1; 2; 3] VNone = Ok [3; 3; 3]
  /\ @predict Sample.counting [1; 2; 3] (VInt 2)
     <> @predict Sample.counting [1; 2; 3] VNone.
Proof. split; [reflexivity | split; [reflexivity | discriminate]]. Qed.

Lemma predict_batched_equals_unbatched_witness :
  exists ranges,
    @batches Sample.counting [1; 2; 3] 2 = Ok ranges
    /\ (forall k, (k < List.length ranges)%nat ->
                  nth k ranges [] = firstn (Z.to_nat 2) (skipn (k * Z.to_nat 2) [1; 2; 3]))
    /\ List.concat ranges = [1; 2; 3]
    /\ @predict Sample.counting [1; 2; 3] (VInt 2)
       = Ok (List.concat (map (@predict_None Sample.counting) ranges))
    /\ ((exists f, forall X', @super_predict Sample.counting X' = map f X') ->
        @predict Sample.counting [1; 2; 3] (VInt 2)
        = @predict Sample.counting [1; 2; 3] VNone).
Proof.
  apply (@predict_batched_equals_unbatched Sample.counting [1; 2; 3] 2).
  - intros X'. cbn. apply length_map.
  - reflexivity.
  - split; reflexivity.
Defined.

Lemma predict_batch_size_check_witness :
  @predict Sample.doubling [1; 2; 3] (VInt 0)
  = Raise (Exception "batch_size must be a positive integer")
  <-> ~ (exists b, VInt 0 = VInt b /\ 0 < b).
Proof.
  apply (@predict_batch_size_check Sample.doubling [1; 2; 3] (VInt 0)).
  discriminate.
Defined.

Lemma invalid_selector_key_rejected_witness :
  @_get_hyperparameter_search_space Sample.spaces Sample.util []
    [("sparse", VBool true)] None (Some [("classifier", ["svm"]); ("x", [])])
    Sample.pipeline
  = ([("sparse", VBool true)],
     Raise (ValueError
              "Invalid key in include: x; should be one of ['imputation', 'classifier']")).
Proof.
  destruct (proj1 (@invalid_selector_key_rejected Sample.spaces Sample.util []
                     [("sparse", VBool true)] None
                     (Some [("classifier", ["svm"]); ("x", [])]) Sample.pipeline))
    as (what & key & Hwhere & Hnot & Hcall).
  - exists "x". split.
    + simpl. auto.
    + simpl. intros [H | [H | []]]; discriminate H.
  - destruct Hwhere as [[-> Hin] | [_ []]].
    destruct Hin as [<- | [<- | []]].
    + exfalso. apply Hnot. simpl. auto.
    + exact Hcall.
Defined.

Lemma compatibility_matrix_checked_witness :
  snd (@_get_hyperparameter_search_space Sample.spaces Sample.util []
         [("sparse", VBool true)] None None Sample.pipeline)
  = Raise (AssertionError "No valid pipeline found.")
  /\ 0 < true_count Sample.all_true <= np_size Sample.all_true.
Proof.
  split.
  - apply (@compatibility_matrix_checked Sample.spaces Sample.util []
             [("sparse", VBool true)] None None Sample.pipeline Sample.all_false).
    + constructor.
    + constructor.
    + reflexivity.
    + reflexivity.
  - apply (@compatibility_matrix_checked Sample.spaces Sample.util []
             [] None None Sample.pipeline Sample.all_true)
      with (cs' := Sample.space).
    + constructor.
    + constructor.
    + reflexivity.
    + reflexivity.
Defined.

(** C8, as claimed: the mapping the caller passed is not left as it was. *)
Lemma dataset_properties_mapping_changed :
  fst (@_get_hyperparameter_search_space Sample.spaces Sample.util []
         [] None None Sample.pipeline)
  = [("sparse", VBool false); ("signed", VBool false)]
  /\ fst (@_get_hyperparameter_search_space Sample.spaces Sample.util []
            [] None None Sample.pipeline) <> [].
Proof. split; [reflexivity | discriminate]. Qed.

Lemma dataset_properties_defaults_written_witness :
  dict_get (fst (@_get_hyperparameter_search_space Sample.spaces Sample.util []
                   [("sparse", VBool true)] None None Sample.pipeline)) "sparse"
  = Some (VBool true)
  /\ dict_get (fst (@_get_hyperparameter_search_space Sample.spaces Sample.util []
                      [("sparse", VBool true)] None None Sample.pipeline)) "signed"
     = Some (VBool false).
Proof.
  destruct (@dataset_properties_defaults_written Sample.spaces Sample.util []
              [("sparse", VBool true)] None None Sample.pipeline)
    as (Hsparse & Hsigned & _).
  - constructor.
  - constructor.
  - split; [exact Hsparse | exact Hsigned].
Defined.

Lemma set_hyperparameters_routes_by_prefix_witness :
  exists self',
    @set_hyperparameters Sample.spaces Sample.generators
      (@before_set_hyperparameters Sample.spaces Sample.generators
         Sample.pipeline [] Sample.config) Sample.config = Ok self'
    /\ Forall2 (@routed Sample.spaces [] Sample.config) Sample.pipeline (steps self')
    /\ configuration self' = Some Sample.config.
Proof.
  eexists. split; [reflexivity|].
  destruct (@set_hyperparameters_routes_by_prefix Sample.spaces Sample.generators
              (@before_set_hyperparameters Sample.spaces Sample.generators
                 Sample.pipeline [] Sample.config) _ Sample.config eq_refl)
    as (Hrouted & _ & Hconf).
  split; [exact Hrouted | exact Hconf].
Defined.

Lemma set_hyperparameters_idempotent_witness :
  exists self',
    @set_hyperparameters Sample.spaces Sample.generators
      (@before_set_hyperparameters Sample.spaces Sample.generators
         Sample.pipeline [] Sample.config) Sample.config = Ok self'
    /\ @set_hyperparameters Sample.spaces Sample.generators self' Sample.config
       = Ok self'.
Proof.
  eexists. split; [reflexivity|].
  apply (@set_hyperparameters_idempotent Sample.spaces Sample.generators
           (@before_set_hyperparameters Sample.spaces Sample.generators
              Sample.pipeline [] Sample.config)).
  reflexivity.
Defined.

Lemma configuration_of_other_space_rejected_witness :
  @__init__ Sample.spaces Sample.generators Sample.classification
    (ConfigObject Sample.foreign_config) None (Some []) None None None
  = Raise (ValueError
             ("Configuration passed does not come from the same configuration space. Differences are: "
                ++ "-imputation:strategy" ++ nl ++ "-classifier:__choice__" ++ nl
                ++ "-classifier:C" ++ nl ++ "+classifier:C"))
  /\ exists self,
       @__init__ Sample.spaces Sample.generators Sample.classification
         (ConfigObject Sample.config) None (Some []) None None None = Ok self
       /\ configuration_ self = Sample.config.
Proof.
  split.
  - apply (@configuration_of_other_space_rejected Sample.spaces Sample.generators
             Sample.classification Sample.foreign_config None (Some []) None None None
             Sample.pipeline Sample.space eq_refl eq_refl).
    reflexivity.
  - eexists. split; [reflexivity|].
    apply (@configuration_of_other_space_rejected Sample.spaces Sample.generators
             Sample.classification Sample.config None (Some []) None None None
             Sample.pipeline Sample.space eq_refl eq_refl).
    + reflexivity.
    + reflexivity.
Defined.

Lemma default_random_state_is_seed_1_witness :
  exists self,
    @__init__ Sample.spaces Sample.generators Sample.classification
      ConfigNone None None None None None = Ok self
    /\ exists rs, @check_random_state Sample.generators (inl (VInt 1)) = Ok rs
                  /\ random_state self = Some rs.
Proof.
  eexists. split; [reflexivity|].
  apply (proj1 (@default_random_state_is_seed_1 Sample.spaces Sample.generators
                  Sample.classification ConfigNone ConfigNone None None None None
                  None None None None)).
  reflexivity.
Defined.

(* ================================================================== *)
(** * More on the search-space construction *)
(* ================================================================== *)

Lemma check_keys_find (what : string) (sel_keys keys : list string) :
  check_keys what sel_keys keys
  = match find (fun key => negb (list_contains keys key)) sel_keys with
    | Some key => Raise (ValueError (invalid_key_message what key keys))
    | None => Ok tt
    end.
Proof.
  induction sel_keys as [| key rest IH]; simpl; [reflexivity|].
  destruct (negb (list_contains keys key)); [reflexivity | exact IH].
Qed.

Lemma dict_set_absent {V} (d : dict V) (k : string) (v : V) :
  dict_get d k = None -> dict_set d k v = d ++ [(k, v)].
Proof.
  induction d as [| [k' v'] d IH]; simpl; intros Hget; [reflexivity|].
  destruct (String.eqb k k'); [discriminate|]. rewrite IH by exact Hget. reflexivity.
Qed.

Lemma dict_get_app_absent {V} (d d' : dict V) (k : string) :
  dict_get d k = None -> dict_get (d ++ d') k = dict_get d' k.
Proof.
  induction d as [| [k' v'] d IH]; simpl; intros Hget; [reflexivity|].
  destruct (String.eqb k k'); [discriminate | apply IH; exact Hget].
Qed.

Lemma dict_get_app_present {V} (d d' : dict V) (k : string) (v : V) :
  dict_get d k = Some v -> dict_get (d ++ d') k = Some v.
Proof.
  induction d as [| [k' v'] d IH]; cbn [dict_get app]; intros Hget; [discriminate|].
  destruct (String.eqb k k'); [exact Hget | apply IH; exact Hget].
Qed.

Lemma set_default_properties_app (d : dict value) :
  set_default_properties d = d ++ missing_defaults d.
Proof.
  unfold set_default_properties, missing_defaults, dict_contains.
  destruct (dict_get d "sparse") as [v |] eqn:Hs; cbn [negb].
  - destruct (dict_get d "signed") as [w |] eqn:Hg; cbn [negb app].
    + rewrite app_nil_r. reflexivity.
    + apply dict_set_absent. exact Hg.
  - rewrite (dict_set_absent d "sparse" _ Hs).
    destruct (dict_get d "signed") as [w |] eqn:Hg.
    + rewrite (dict_get_app_present _ [("sparse", VBool false)] _ _ Hg).
      reflexivity.
    + assert (Hg' : dict_get (d ++ [("sparse", VBool false)]) "signed" = None).
      { rewrite dict_get_app_absent by exact Hg. reflexivity. }
      rewrite Hg'. cbn [negb]. rewrite (dict_set_absent _ "signed" _ Hg').
      rewrite <- app_assoc. reflexivity.
Qed.

Lemma set_default_properties_twice (d : dict value) :
  set_default_properties (set_default_properties d) = set_default_properties d.
Proof.
  apply set_default_properties_length. unfold dict_contains.
  rewrite !set_default_properties_get. cbn. auto.
Qed.

Lemma sum_all_ones (l : list Z) :
  Forall (fun z => z = 1) l -> fold_right Z.add 0 l = Z.of_nat (List.length l).
Proof.
  induction 1 as [| z l Hz Hl IH]; [reflexivity|].
  cbn [fold_right List.length]. rewrite IH, Hz. lia.
Qed.

Section SearchSpaceMore.
Context {CS : ConfigSpace} {U : SearchSpaceUtil}.

(** X6.  The call raises "Invalid key in include: <key>; should be one of
    <step names>" for the first key of [include], in its order, that is not
    a step name; only if [include] has none, the same with "exclude" for the
    first such key of [exclude]; a rejected call leaves the dataset
    properties as they were. *)
Theorem first_invalid_key_reported (cs : ConfigurationSpace)
    (dataset_properties : dict value) (exclude include : option selector)
    (pipeline : pipeline_steps) :
  let keys := map fst pipeline in
  let call := _get_hyperparameter_search_space cs dataset_properties
                exclude include pipeline in
  (forall key, first_invalid_key (or_empty include) keys = Some key ->
     call = (dataset_properties,
             Raise (ValueError ("Invalid key in include: " ++ key
                                  ++ "; should be one of " ++ str_list keys))))
  /\ (forall key, first_invalid_key (or_empty include) keys = None ->
        first_invalid_key (or_empty exclude) keys = Some key ->
        call = (dataset_properties,
                Raise (ValueError ("Invalid key in exclude: " ++ key
                                     ++ "; should be one of " ++ str_list keys)))).
Proof.
  intros keys call. subst call. unfold _get_hyperparameter_search_space, first_invalid_key.
  fold keys. rewrite !check_keys_find. split.
  - intros key ->. reflexivity.
  - intros key -> ->. reflexivity.
Qed.

(** X7.  The call appends the missing defaults to the caller's mapping,
    [sparse] before [signed], and moves or changes no entry it had. *)
Theorem defaults_appended (cs : ConfigurationSpace)
    (dataset_properties : dict value) (exclude include : option selector)
    (pipeline : pipeline_steps) :
  Forall (fun key => In key (map fst pipeline)) (dict_keys (or_empty include)) ->
  Forall (fun key => In key (map fst pipeline)) (dict_keys (or_empty exclude)) ->
  fst (_get_hyperparameter_search_space cs dataset_properties exclude include pipeline)
  = dataset_properties ++ missing_defaults dataset_properties.
Proof.
  intros Hinc Hexc. rewrite search_space_valid_keys by assumption.
  apply set_default_properties_app.
Qed.

(** X8.  The defaults are written once: building a search space again,
    into whatever space, over the mapping a first call left behind leaves
    that mapping as it is. *)
Theorem search_space_second_call (cs cs' : ConfigurationSpace)
    (dataset_properties : dict value) (exclude include : option selector)
    (pipeline : pipeline_steps) :
  let left_behind := fst (_get_hyperparameter_search_space cs dataset_properties
                            exclude include pipeline) in
  fst (_get_hyperparameter_search_space cs' left_behind exclude include pipeline)
  = left_behind.
Proof.
  intros left_behind. subst left_behind. unfold _get_hyperparameter_search_space.
  destruct (check_keys "include" _ _); [| reflexivity].
  destruct (check_keys "exclude" _ _); [| reflexivity].
  cbn [fst]. apply set_default_properties_twice.
Qed.

(** X9.  When every entry of the match array is 1 the space returned is the
    composition of the steps' spaces: [add_forbidden] is not applied. *)
Theorem all_true_adds_no_forbidden (cs : ConfigurationSpace)
    (dataset_properties : dict value) (exclude include : option selector)
    (pipeline : pipeline_steps) (matches : ndarray) :
  Forall (fun key => In key (map fst pipeline)) (dict_keys (or_empty include)) ->
  Forall (fun key => In key (map fst pipeline)) (dict_keys (or_empty exclude)) ->
  get_match_array pipeline (set_default_properties dataset_properties)
    (or_empty include) (or_empty exclude) = Ok matches ->
  Forall (fun z => z = 1) (data matches) -> data matches <> [] ->
  snd (_get_hyperparameter_search_space cs dataset_properties exclude include pipeline)
  = add_nodes cs matches (set_default_properties dataset_properties)
      (or_empty include) (or_empty exclude) 0%nat pipeline.
Proof.
  intros Hinc Hexc Hm Hones Hne.
  rewrite search_space_valid_keys by assumption. cbn [snd].
  unfold build_search_space. rewrite Hm. cbn [bind].
  assert (Hsum : np_sum matches = np_size matches).
  { unfold np_sum, np_size. rewrite <- (shape_data matches). apply sum_all_ones, Hones. }
  assert (Hpos : 0 < np_size matches).
  { unfold np_size. rewrite <- (shape_data matches).
    destruct (data matches); [congruence | simpl; lia]. }
  rewrite Hsum.
  destruct (Z.eqb_spec (np_size matches) 0); [lia|].
  rewrite Z.leb_refl, Z.ltb_irrefl. cbn [negb].
  destruct (add_nodes _ _ _ _ _ _ _); reflexivity.
Qed.

(** X10.  The steps' spaces are merged in pipeline order: for a pipeline in
    two parts, the second part is merged into what the first part gave,
    with node indices that continue. *)
Theorem add_nodes_app (cs : ConfigurationSpace) (matches : ndarray)
    (dataset_properties : dict value) (include exclude : selector)
    (node_idx : nat) (first second : pipeline_steps) :
  add_nodes cs matches dataset_properties include exclude node_idx (first ++ second)
  = (cs' <- add_nodes cs matches dataset_properties include exclude node_idx first ;;
     add_nodes cs' matches dataset_properties include exclude
       (node_idx + List.length first)%nat second).
Proof.
  revert cs node_idx. induction first as [| [node_name node] rest IH]; intros cs node_idx.
  - cbn [app add_nodes bind List.length]. rewrite Nat.add_0_r. reflexivity.
  - cbn [app add_nodes List.length].
    destruct (if negb (is_choice node) then _ else _) as [cs' | e]; cbn [bind].
    + rewrite IH. replace (S node_idx + List.length rest)%nat
        with (node_idx + S (List.length rest))%nat by lia. reflexivity.
    + reflexivity.
Qed.

(** X11.  Steps that are not choices are merged without looking at the match
    array, the selectors or the node index. *)
Theorem add_nodes_without_choice (cs : ConfigurationSpace)
    (matches matches' : ndarray) (dataset_properties : dict value)
    (include include' exclude exclude' : selector) (node_idx node_idx' : nat)
    (pipeline : pipeline_steps) :
  Forall (fun step => is_choice (snd step) = false) pipeline ->
  add_nodes cs matches dataset_properties include exclude node_idx pipeline
  = add_nodes cs matches' dataset_properties include' exclude' node_idx' pipeline.
Proof.
  intros Hall. revert cs node_idx node_idx'.
  induction Hall as [| [node_name node] rest Hnode Hrest IH]; intros cs node_idx node_idx'.
  - reflexivity.
  - cbn [add_nodes]. cbn [snd] in Hnode. rewrite Hnode. cbn [negb].
    destruct (_ <- node_search_space node dataset_properties None ;; _) as [cs' | e];
      cbn [bind]; [apply IH | reflexivity].
Qed.

(** X22.  A match array whose sum exceeds its size is rejected with the
    [AssertionError] that says it is not binary, giving the sum, the size and
    the shape. *)
Theorem non_binary_matrix_rejected (cs : ConfigurationSpace)
    (dataset_properties : dict value) (exclude include : option selector)
    (pipeline : pipeline_steps) (matches : ndarray) :
  Forall (fun key => In key (map fst pipeline)) (dict_keys (or_empty include)) ->
  Forall (fun key => In key (map fst pipeline)) (dict_keys (or_empty exclude)) ->
  get_match_array pipeline (set_default_properties dataset_properties)
    (or_empty include) (or_empty exclude) = Ok matches ->
  np_size matches < np_sum matches ->
  snd (_get_hyperparameter_search_space cs dataset_properties exclude include pipeline)
  = Raise (AssertionError
             ("'matches' is not binary; " ++ str_int (np_sum matches) ++ " <= "
                ++ str_int (np_size matches) ++ ", " ++ str_tuple (shape matches))).
Proof.
  intros Hinc Hexc Hm Hgt.
  rewrite search_space_valid_keys by assumption. cbn [snd].
  unfold build_search_space. rewrite Hm. cbn [bind].
  assert (Hsize : 0 <= np_size matches) by (unfold np_size; lia).
  destruct (Z.eqb_spec (np_sum matches) 0); [lia|].
  destruct (Z.leb_spec (np_sum matches) (np_size matches)); [lia|].
  reflexivity.
Qed.

End SearchSpaceMore.


(* ================================================================== *)
(** * More on the routing, the constructor and the text *)
(* ================================================================== *)

Lemma dict_get_NoDup {V} (d : dict V) (k : string) (v : V) :
  NoDup (dict_keys d) -> In (k, v) d -> dict_get d k = Some v.
Proof.
  unfold dict_keys. induction d as [| [k' v'] d IH]; cbn [map fst dict_get];
    intros Hnd Hin; [contradiction|].
  inversion Hnd as [| ? ? Hnotin Hnd']; subst.
  destruct Hin as [Heq | Hin].
  - injection Heq as -> ->. rewrite String.eqb_refl. reflexivity.
  - destruct (String.eqb_spec k k') as [-> | _]; [| apply IH; assumption].
    exfalso. apply Hnotin. apply (in_map fst) in Hin. exact Hin.
Qed.

Section RouterMore.
Context {CS : ConfigSpace}.

(** X12.  A qualified name round-trips: the name [step:name] starts with the
    prefix [step:], and removing the prefix once gives back [name], also
    when [name] itself starts with the prefix. *)
Theorem qualified_name_round_trip (step name : string) :
  startswith (step ++ ":" ++ name) (step ++ ":") = true
  /\ replace_first (step ++ ":" ++ name) (step ++ ":") EmptyString = name
  /\ replace_first (step ++ ":" ++ step ++ ":" ++ name) (step ++ ":") EmptyString
     = (step ++ ":" ++ name)%string.
Proof.
  assert (Hstrip : forall rest,
             replace_first (step ++ ":" ++ rest) (step ++ ":") EmptyString = rest)
    by (intros rest; rewrite <- (append_assoc step ":" rest); apply replace_first_app).
  split; [| split; apply Hstrip].
  unfold startswith. rewrite <- (append_assoc step ":" name). apply prefix_app.
Qed.

(** The inner loop over a dict with unique keys, from the dict [acc] on. *)
Lemma sub_config_loop_in_order (c : Configuration ConfigurationSpace)
    (pre : string) (l : dict value) :
  forall acc,
    (forall kv, In kv l -> config_getitem c (fst kv) = snd kv) ->
    NoDup (map fst l) ->
    (forall kv, In kv l -> startswith (fst kv) pre = true ->
                dict_get acc (skip (String.length pre) (fst kv)) = None) ->
    fold_left
      (fun d param =>
         if startswith param pre
         then dict_set d (replace_first param pre EmptyString) (config_getitem c param)
         else d)
      (map fst l) acc
    = acc ++ map (fun kv => (skip (String.length pre) (fst kv), snd kv))
                 (filter (fun kv => startswith (fst kv) pre) l).
Proof.
  induction l as [| [k v] l IH]; intros acc Hval Hnd Hfresh.
  - cbn. rewrite app_nil_r. reflexivity.
  - cbn [map fst fold_left filter]. inversion Hnd as [| ? ? Hnotin Hnd']; subst.
    assert (Hval' : forall kv, In kv l -> config_getitem c (fst kv) = snd kv)
      by (intros kv Hin; apply Hval; right; exact Hin).
    destruct (startswith k pre) eqn:Hsw.
    + rewrite (replace_first_prefix _ _ Hsw).
      pose proof (Hval (k, v) (or_introl eq_refl)) as Hkv. cbn [snd fst] in Hkv.
      rewrite Hkv.
      rewrite dict_set_absent by (apply (Hfresh (k, v)); [left; reflexivity | exact Hsw]).
      rewrite IH; [cbn [map fst snd]; rewrite <- app_assoc; reflexivity | exact Hval' | exact Hnd' |].
      intros [k' v'] Hin Hsw'. cbn [fst].
      rewrite dict_get_app_absent
        by (apply (Hfresh (k', v')); [right; exact Hin | exact Hsw']).
      cbn [dict_get].
      destruct (String.eqb_spec (skip (String.length pre) k') (skip (String.length pre) k))
        as [Heq | _]; [| reflexivity].
      exfalso. apply Hnotin.
      assert (k' = k) as <-.
      { rewrite (prefix_skip pre k' Hsw'), (prefix_skip pre k Hsw), Heq. reflexivity. }
      apply (in_map fst) in Hin. exact Hin.
    + apply IH; [exact Hval' | exact Hnd' |].
      intros kv Hin Hsw'. apply Hfresh; [right; exact Hin | exact Hsw'].
Qed.

(** X13.  For a configuration with unique names, the dict a step receives is
    the list of the flat values under the step's prefix, in the order of the
    flat configuration, each name without the prefix; values that are [None]
    are passed on too. *)
Theorem sub_config_dict_in_order (c : Configuration ConfigurationSpace)
    (node_name : string) :
  NoDup (config_iter c) ->
  sub_config_dict node_name c
  = map (fun kv => (skip (String.length (node_name ++ ":")) (fst kv), snd kv))
        (filter (fun kv => startswith (fst kv) (node_name ++ ":")) (values c)).
Proof.
  intros Hnd. unfold sub_config_dict, config_iter, dict_keys in *.
  rewrite (sub_config_loop_in_order c (node_name ++ ":") (values c) []).
  - reflexivity.
  - intros [k v] Hin. unfold config_getitem. cbn [fst snd].
    rewrite (dict_get_NoDup _ _ _ Hnd Hin). reflexivity.
  - exact Hnd.
  - reflexivity.
Qed.

Context {RS : RandomStates} {P : PipelineClass}.

Lemma routed_names (dp : dict value) (c : Configuration ConfigurationSpace)
    (nodes nodes' : pipeline_steps) :
  Forall2 (routed dp c) nodes nodes' -> map fst nodes' = map fst nodes.
Proof.
  induction 1 as [| s s' l l' (Hname & _) _ IH]; [reflexivity|].
  cbn [map]. rewrite Hname, IH. reflexivity.
Qed.

Lemma routed_nodes (dp : dict value) (c : Configuration ConfigurationSpace)
    (nodes nodes' : pipeline_steps) :
  Forall2 (routed dp c) nodes nodes' ->
  Forall (fun step => is_choice_or_component (snd step) = true) nodes
  /\ Forall (fun step => is_choice_or_component (snd step) = true
                         /\ node_configuration (snd step) <> None) nodes'.
Proof.
  induction 1 as [| s s' l l' (_ & Hk & sp & sub & _ & _ & Hn) _ [IH IH']].
  - split; constructor.
  - split; constructor; try assumption.
    rewrite Hn. unfold is_choice_or_component, node_set_hyperparameters in *.
    cbn [node_class_of node_configuration]. split; [exact Hk | discriminate].
Qed.

(** X14.  With a step whose node is neither a choice nor a component in the
    pipeline, [set_hyperparameters] never returns. *)
Theorem set_hyperparameters_unsupported_node (self : BasePipeline)
    (c : Configuration ConfigurationSpace) :
  Exists (fun step => is_choice_or_component (snd step) = false) (steps self) ->
  exists e, set_hyperparameters self c = Raise e.
Proof.
  intros Hex. unfold set_hyperparameters.
  destruct (set_nodes (dataset_properties_ self) c (steps self)) as [steps' | e] eqn:Hs.
  - exfalso. apply set_nodes_routed, routed_nodes in Hs. destruct Hs as [Hall _].
    rewrite Forall_forall in Hall. apply Exists_exists in Hex.
    destruct Hex as (step & Hin & Hother). rewrite (Hall step Hin) in Hother.
    discriminate.
  - exists e. reflexivity.
Qed.

(** X15.  A [set_hyperparameters] that returns keeps the step names and their
    order, the dataset properties, [configuration_] and the random state;
    the new configuration goes to [configuration] only, so the text of the
    pipeline is the one from before the call. *)
Theorem set_hyperparameters_frame (self self' : BasePipeline)
    (c : Configuration ConfigurationSpace) :
  set_hyperparameters self c = Ok self' ->
  map fst (steps self') = map fst (steps self)
  /\ dataset_properties_ self' = dataset_properties_ self
  /\ configuration_ self' = configuration_ self
  /\ random_state self' = random_state self
  /\ __repr__ self' = __repr__ self.
Proof.
  unfold set_hyperparameters. intros H.
  destruct (set_nodes (dataset_properties_ self) c (steps self)) as [steps' |] eqn:Hs;
    [| discriminate].
  injection H as <-. apply set_nodes_routed, routed_names in Hs.
  unfold __repr__. cbn [steps dataset_properties_ configuration_ random_state]. auto.
Qed.

End RouterMore.

Section InitMore.
Context {CS : ConfigSpace} {RS : RandomStates}.

(** X16.  The class [BasePipeline] itself cannot be constructed: whatever
    the arguments, the constructor raises [NotImplementedError()]. *)
Theorem abstract_base_not_constructible (config : config_arg ConfigurationSpace)
    (pipeline : option pipeline_steps) (dataset_properties : option (dict value))
    (include exclude : option selector) (seed : option (value + RandomState)) :
  @__init__ CS RS abstract_base config pipeline dataset_properties include exclude seed
  = Raise (NotImplementedError EmptyString).
Proof.
  unfold __init__. destruct pipeline; reflexivity.
Qed.

Context {P : PipelineClass}.

(** X17.  A constructor that returns leaves an object whose [configuration]
    is its [configuration_], whose steps are the ones given (or the
    subclass's), each a choice or a component holding a sub-configuration,
    and whose random state is set. *)
Theorem init_invariant (config : config_arg ConfigurationSpace)
    (pipeline : option pipeline_steps) (dataset_properties : option (dict value))
    (include exclude : option selector) (seed : option (value + RandomState))
    (self : BasePipeline) :
  __init__ config pipeline dataset_properties include exclude seed = Ok self ->
  configuration self = Some (configuration_ self)
  /\ (exists nodes,
        match pipeline with None => _get_pipeline | Some p => Ok p end = Ok nodes
        /\ map fst (steps self) = map fst nodes)
  /\ Forall (fun step => is_choice_or_component (snd step) = true
                         /\ node_configuration (snd step) <> None) (steps self)
  /\ random_state self <> None.
Proof.
  unfold __init__. intros H.
  destruct (match pipeline with None => _ | Some _ => _ end) as [nodes |];
    [| discriminate]. cbn [bind] in H.
  destruct (snd _) as [cs |]; [| discriminate]. cbn [bind] in H.
  destruct (match config with ConfigNone => _ | _ => _ end) as [c |];
    [| discriminate]. cbn [bind] in H.
  destruct (set_hyperparameters _ c) as [self0 |] eqn:Hset; [| discriminate].
  cbn [bind] in H.
  destruct (match seed with None => _ | Some _ => _ end) as [rs |]; [| discriminate].
  injection H as <-. unfold set_hyperparameters in Hset.
  destruct (set_nodes _ _ _) as [steps' |] eqn:Hs; [| discriminate].
  injection Hset as <-. apply set_nodes_routed in Hs.
  unfold set_random_state, before_set_hyperparameters in *.
  cbn [steps dataset_properties_ configuration_ configuration random_state] in *.
  split; [reflexivity|]. split; [exists nodes; split; [reflexivity | eapply routed_names; exact Hs]|].
  split; [apply routed_nodes in Hs; apply Hs | intros Hnone; discriminate Hnone].
Qed.

(** The loop that fills the dict of values that are not [None]. *)
Lemma repr_configuration_loop (c : Configuration ConfigurationSpace)
    (k : string) (params : list string) :
  forall d,
    dict_get
      (fold_left
         (fun d hp_name =>
            if is_not_None (config_getitem c hp_name)
            then dict_set d hp_name (config_getitem c hp_name)
            else d)
         params d) k
    = if list_contains params k && is_not_None (config_getitem c k)
      then Some (config_getitem c k)
      else dict_get d k.
Proof.
  induction params as [| param params IH]; intros d; [reflexivity|].
  cbn [fold_left]. rewrite IH. unfold list_contains at 2. cbn [existsb].
  fold (list_contains params k).
  destruct (list_contains params k && is_not_None (config_getitem c k)) eqn:Hin.
  - apply andb_true_iff in Hin. destruct Hin as [-> ->].
    rewrite orb_true_r. reflexivity.
  - destruct (String.eqb_spec k param) as [<- | Hne]; cbn [orb].
    + destruct (is_not_None (config_getitem c k)) eqn:Hnn; cbn [andb].
      * apply dict_get_set_eq.
      * rewrite andb_false_r in *. reflexivity.
    + rewrite Hin.
      destruct (is_not_None (config_getitem c param)); [| reflexivity].
      apply dict_get_set_neq. exact Hne.
Qed.

(** X18.  The text shows a hyperparameter exactly when its value is not
    [None]: the dict it is made from has the values of [configuration_]
    without the [None] ones. *)
Theorem repr_configuration_get (c : Configuration ConfigurationSpace) (k : string) :
  dict_get (repr_configuration c) k
  = match dict_get (values c) k with
    | Some VNone => None
    | found => found
    end.
Proof.
  unfold repr_configuration. rewrite repr_configuration_loop. cbn [dict_get].
  destruct (list_contains (config_iter c) k) eqn:Hin; cbn [andb].
  - rewrite (config_getitem_get c k Hin).
    destruct (config_getitem c k); reflexivity.
  - apply dict_get_keys in Hin. unfold config_iter in Hin. rewrite Hin. reflexivity.
Qed.

Lemma insert_sorted_perm (k : string) (l : list string) :
  Permutation (insert_sorted k l) (k :: l).
Proof.
  induction l as [| k' l IH]; cbn [insert_sorted]; [reflexivity|].
  destruct (String.leb k k'); [reflexivity|].
  rewrite IH. apply perm_swap.
Qed.

Lemma sorted_perm (l : list string) : Permutation (sorted l) l.
Proof.
  induction l as [| k l IH]; cbn [sorted fold_right]; [reflexivity|].
  fold (sorted l). rewrite insert_sorted_perm, IH. reflexivity.
Qed.

Lemma insert_sorted_Sorted (k : string) (l : list string) :
  Sorted (fun a b => String.leb a b = true) l ->
  Sorted (fun a b => String.leb a b = true) (insert_sorted k l).
Proof.
  induction 1 as [| k' l Hl IH Hhd]; cbn [insert_sorted].
  - constructor; constructor.
  - destruct (String.leb k k') eqn:Hle.
    + constructor; [constructor; assumption | constructor; exact Hle].
    + constructor; [exact IH|].
      assert (Hle' : String.leb k' k = true)
        by (destruct (String.leb_total k k'); congruence).
      destruct l as [| k'' l]; cbn [insert_sorted].
      * constructor. exact Hle'.
      * destruct (String.leb k k''); constructor; [exact Hle'|].
        inversion Hhd. assumption.
Qed.

Lemma sorted_Sorted (l : list string) :
  Sorted (fun a b => String.leb a b = true) (sorted l).
Proof.
  induction l as [| k l IH]; cbn [sorted fold_right]; [constructor|].
  apply insert_sorted_Sorted. exact IH.
Qed.

(** X19.  A pipeline without dataset properties is shown as
    [Class(config={...})] with one entry for each hyperparameter whose value
    is not [None], in ascending order of the names. *)
Theorem repr_sorted_without_dataset_properties (self : BasePipeline) :
  dataset_properties_ self = [] ->
  exists names,
    Sorted (fun a b => String.leb a b = true) names
    /\ Permutation names (dict_keys (repr_configuration (configuration_ self)))
    /\ __repr__ self
       = (class_name ++ "(config={" ++ nl ++ "  "
            ++ join ("," ++ nl ++ "  ")
                 (map (hyperparameter_text (repr_configuration (configuration_ self)))
                      names)
            ++ "})")%string.
Proof.
  intros Hdp. exists (sorted (dict_keys (repr_configuration (configuration_ self)))).
  split; [apply sorted_Sorted|]. split; [apply sorted_perm|].
  unfold __repr__. rewrite Hdp. cbn [List.length Nat.ltb Nat.leb].
  unfold configuration_string, join_empty, hyperparameter_text.
  cbn [String.concat]. f_equal. rewrite !append_assoc. reflexivity.
Qed.

End InitMore.


(* ================================================================== *)
(** * [pre_transform]: the keyword arguments *)
(* ================================================================== *)

Lemma string_mem_app (c : ascii) (a b : string) :
  string_mem c (a ++ b) = string_mem c a || string_mem c b.
Proof.
  induction a as [| x a IH]; cbn [append string_mem]; [reflexivity|].
  destruct (Ascii.eqb c x); [reflexivity | exact IH].
Qed.

Lemma replace_char_removes (s : string) (old : ascii) (new : string) :
  string_mem old new = false -> string_mem old (replace_char s old new) = false.
Proof.
  intros Hnew. induction s as [| c s IH]; cbn [replace_char]; [reflexivity|].
  destruct (Ascii.eqb c old) eqn:Hc.
  - rewrite string_mem_app, Hnew, IH. reflexivity.
  - cbn [string_mem]. rewrite Ascii.eqb_sym, Hc. exact IH.
Qed.

Lemma replace_char_absent (s : string) (old : ascii) (new : string) :
  string_mem old s = false -> replace_char s old new = s.
Proof.
  induction s as [| c s IH]; cbn [replace_char string_mem]; [reflexivity|].
  rewrite (Ascii.eqb_sym old c). destruct (Ascii.eqb c old); [discriminate|].
  intros H. rewrite IH by exact H. reflexivity.
Qed.

Lemma dict_set_keys {V} (d : dict V) (k k' : string) (v : V) :
  In k' (dict_keys (dict_set d k v)) <-> k' = k \/ In k' (dict_keys d).
Proof.
  unfold dict_keys. induction d as [| [k0 v0] d IH]; cbn [dict_set map fst In].
  - intuition congruence.
  - destruct (String.eqb_spec k k0) as [-> | Hne]; cbn [map fst In].
    + intuition congruence.
    + rewrite IH. intuition congruence.
Qed.

Lemma rename_loop_keys {V} (l : dict V) (k : string) :
  forall acc,
    In k (dict_keys
            (fold_left (fun d kv => dict_set d (replace_char (fst kv) colon "__") (snd kv))
                       l acc))
    <-> In k (dict_keys acc)
        \/ exists k0, In k0 (dict_keys l) /\ k = replace_char k0 colon "__".
Proof.
  induction l as [| [k1 v1] l IH]; intros acc; cbn [fold_left].
  - split; [auto | intros [H | (k0 & [] & _)]; exact H].
  - rewrite IH, dict_set_keys. cbn [fst snd dict_keys map In]. split.
    + intros [[-> | H] | (k0 & Hin & ->)]; eauto 6.
    + intros [H | (k0 & [<- | Hin] & ->)]; eauto 6.
Qed.

Lemma rename_loop_in_order {V} (l : dict V) :
  forall acc,
    NoDup (dict_keys acc ++ map (fun k => replace_char k colon "__") (dict_keys l)) ->
    fold_left (fun d kv => dict_set d (replace_char (fst kv) colon "__") (snd kv)) l acc
    = acc ++ map (fun kv => (replace_char (fst kv) colon "__", snd kv)) l.
Proof.
  induction l as [| [k v] l IH]; intros acc Hnd; cbn [fold_left map fst snd].
  - rewrite app_nil_r. reflexivity.
  - cbn [dict_keys map fst] in Hnd.
    assert (Habs : dict_get acc (replace_char k colon "__") = None).
    { apply dict_get_keys. destruct (list_contains _ _) eqn:Hc; [| reflexivity].
      apply list_contains_In in Hc. apply NoDup_remove_2 in Hnd.
      exfalso. apply Hnd. apply in_or_app. left. exact Hc. }
    rewrite (dict_set_absent _ _ _ Habs), IH.
    + rewrite <- app_assoc. reflexivity.
    + unfold dict_keys in *. rewrite map_app, <- app_assoc. exact Hnd.
Qed.

(** X20.  Every key of the dict that [pre_transform] passes on is a key of
    the [fit_params] dict with each [:] replaced by [__]; it contains no
    [:], and a key that had none is passed as it is.  [None] or a value that
    is not a dict passes no key. *)
Theorem fit_params_keys_renamed {V} (fit_params : fit_params_arg V) (k : string) :
  In k (dict_keys (prepare_fit_params fit_params)) ->
  string_mem colon k = false
  /\ exists d k0,
       fit_params = FitDict d /\ In k0 (dict_keys d)
       /\ k = replace_char k0 colon "__"
       /\ (string_mem colon k0 = false -> k = k0).
Proof.
  destruct fit_params as [| d | v]; cbn [prepare_fit_params];
    [intros [] | | intros []].
  unfold rename_fit_params. rewrite rename_loop_keys.
  intros [[] | (k0 & Hin & ->)]. split.
  - apply replace_char_removes. reflexivity.
  - exists d, k0. repeat split; try assumption.
    intros Hno. apply replace_char_absent. exact Hno.
Qed.

(** X21.  When no two keys of [fit_params] become the same key, the dict
    passed on has the same values in the same order, each under its renamed
    key. *)
Theorem fit_params_renamed_in_order {V} (d : dict V) :
  NoDup (map (fun k => replace_char k colon "__") (dict_keys d)) ->
  prepare_fit_params (FitDict d)
  = map (fun kv => (replace_char (fst kv) colon "__", snd kv)) d.
Proof.
  intros Hnd. cbn [prepare_fit_params]. unfold rename_fit_params.
  rewrite rename_loop_in_order; [reflexivity | exact Hnd].
Qed.

(* ================================================================== *)
(** * The further properties at the sample pipeline *)
(* ================================================================== *)


Lemma predict_batched_row_count_witness :
  List.length [2; 2; 1] = List.length [1; 2; 3].
Proof.
  apply (@predict_batched_row_count Sample.counting [1; 2; 3] 2 [2; 2; 1]).
  reflexivity.
Defined.

Lemma predict_batch_size_overflow_witness :
  @predict Sample.doubling [1; 2; 3] (VInt (2 ^ 1024))
  = Raise (OverflowError "int too large to convert to float").
Proof.
  apply (@predict_batch_size_overflow Sample.doubling [1; 2; 3] (2 ^ 1024)).
  intros H. discriminate H.
Defined.

Lemma predict_batched_empty_witness :
  @predict Sample.doubling [] (VInt 4) = Ok [].
Proof.
  apply (@predict_batched_empty Sample.doubling 4). split; reflexivity.
Defined.

Lemma batches_nonempty_witness :
  exists ranges,
    @batches Sample.doubling [1; 2; 3] 2 = Ok ranges
    /\ Forall (fun batch => batch <> []) ranges
    /\ Z.of_nat (List.length ranges) = (3 + 2 - 1) / 2.
Proof.
  apply (@batches_nonempty Sample.doubling [1; 2; 3] 2).
  - split; reflexivity.
  - reflexivity.
  - discriminate.
Defined.

Lemma first_invalid_key_reported_witness :
  @_get_hyperparameter_search_space Sample.spaces Sample.util []
    [] (Some [("y", [])]) (Some [("classifier", ["svm"]); ("x", []); ("z", [])])
    Sample.pipeline
  = ([], Raise (ValueError
                  "Invalid key in include: x; should be one of ['imputation', 'classifier']")).
Proof.
  apply (proj1 (@first_invalid_key_reported Sample.spaces Sample.util []
                  [] (Some [("y", [])])
                  (Some [("classifier", ["svm"]); ("x", []); ("z", [])])
                  Sample.pipeline) "x").
  reflexivity.
Defined.

Lemma defaults_appended_witness :
  fst (@_get_hyperparameter_search_space Sample.spaces Sample.util []
         [("signed", VBool true); ("multiclass", VBool true)] None None Sample.pipeline)
  = [("signed", VBool true); ("multiclass", VBool true); ("sparse", VBool false)].
Proof.
  apply (@defaults_appended Sample.spaces Sample.util []
           [("signed", VBool true); ("multiclass", VBool true)] None None Sample.pipeline).
  - constructor.
  - constructor.
Defined.

Lemma all_true_adds_no_forbidden_witness :
  snd (@_get_hyperparameter_search_space Sample.spaces Sample.util []
         [] None None Sample.pipeline)
  = Ok Sample.space.
Proof.
  apply (@all_true_adds_no_forbidden Sample.spaces Sample.util []
           [] None None Sample.pipeline Sample.all_true).
  - constructor.
  - constructor.
  - reflexivity.
  - repeat constructor.
  - discriminate.
Defined.

Lemma add_nodes_without_choice_witness :
  @add_nodes Sample.spaces Sample.util [] Sample.all_true [] [] [] 0%nat
    [("imputation", Sample.imputation)]
  = @add_nodes Sample.spaces Sample.util [] Sample.all_false []
      [("imputation", ["mean"])] [] 3%nat [("imputation", Sample.imputation)].
Proof.
  apply (@add_nodes_without_choice Sample.spaces Sample.util).
  repeat constructor.
Defined.

Lemma sub_config_dict_in_order_witness :
  @sub_config_dict Sample.spaces "classifier" Sample.config
  = [("__choice__", VStr "svm"); ("C", VInt 3)].
Proof.
  apply (@sub_config_dict_in_order Sample.spaces Sample.config "classifier").
  repeat (constructor; [cbn; intuition discriminate|]). constructor.
Defined.

Lemma set_hyperparameters_unsupported_node_witness :
  exists e,
    @set_hyperparameters Sample.spaces Sample.generators
      SampleMore.foreign_pipeline Sample.config = Raise e.
Proof.
  apply (@set_hyperparameters_unsupported_node Sample.spaces Sample.generators
           SampleMore.foreign_pipeline Sample.config).
  apply Exists_cons_tl. apply Exists_cons_hd. reflexivity.
Defined.

Lemma set_hyperparameters_frame_witness :
  exists self',
    @set_hyperparameters Sample.spaces Sample.generators Sample.shown_bare Sample.config
    = Ok self'
    /\ @__repr__ Sample.spaces Sample.generators Sample.classification self'
       = @__repr__ Sample.spaces Sample.generators Sample.classification Sample.shown_bare.
Proof.
  eexists. split; [reflexivity|].
  apply (@set_hyperparameters_frame Sample.spaces Sample.generators Sample.classification
           Sample.shown_bare _ Sample.config eq_refl).
Defined.

Lemma init_invariant_witness :
  exists self,
    @__init__ Sample.spaces Sample.generators Sample.classification
      ConfigNone None None None None None = Ok self
    /\ configuration self = Some (configuration_ self).
Proof.
  eexists. split; [reflexivity|].
  apply (@init_invariant Sample.spaces Sample.generators Sample.classification
           ConfigNone None None None None None _ eq_refl).
Defined.

Lemma repr_sorted_without_dataset_properties_witness :
  exists names,
    Sorted (fun a b => String.leb a b = true) names
    /\ Permutation names
         (dict_keys (@repr_configuration Sample.spaces (configuration_ Sample.shown_bare)))
    /\ @__repr__ Sample.spaces Sample.generators Sample.classification Sample.shown_bare
       = (@class_name Sample.spaces Sample.classification ++ "(config={" ++ nl ++ "  "
            ++ join ("," ++ nl ++ "  ")
                 (map (hyperparameter_text
                         (@repr_configuration Sample.spaces
                            (configuration_ Sample.shown_bare)))
                      names)
            ++ "})")%string.
Proof.
  apply (@repr_sorted_without_dataset_properties Sample.spaces Sample.generators
           Sample.classification Sample.shown_bare).
  reflexivity.
Defined.

Lemma fit_params_keys_renamed_witness :
  string_mem colon "classifier__sample_weight" = false
  /\ exists d k0,
       FitDict [("classifier:sample_weight", 7)] = FitDict d
       /\ In k0 (dict_keys d)
       /\ "classifier__sample_weight" = replace_char k0 colon "__"
       /\ (string_mem colon k0 = false -> "classifier__sample_weight" = k0).
Proof.
  apply (@fit_params_keys_renamed Z (FitDict [("classifier:sample_weight", 7)])
           "classifier__sample_weight").
  cbn. left. reflexivity.
Defined.

Lemma fit_params_renamed_in_order_witness :
  prepare_fit_params (FitDict [("classifier:sample_weight", 7); ("verbose", 0)])
  = [("classifier__sample_weight", 7); ("verbose", 0)].
Proof.
  apply (@fit_params_renamed_in_order Z
           [("classifier:sample_weight", 7); ("verbose", 0)]).
  repeat (constructor; [cbn; intuition discriminate|]). constructor.
Defined.

Lemma non_binary_matrix_rejected_witness :
  snd (@_get_hyperparameter_search_space Sample.spaces SampleMore.counting_util []
         [] None None Sample.pipeline)
  = Raise (AssertionError "'matches' is not binary; 3 <= 2, (2,)").
Proof.
  apply (@non_binary_matrix_rejected Sample.spaces SampleMore.counting_util []
           [] None None Sample.pipeline SampleMore.counts).
  - constructor.
  - constructor.
  - reflexivity.
  - unfold np_size, np_sum. simpl. lia.
Defined.
